(** * Machine provisioning and teardown for the Azure machine driver

    A shallow embedding of [pkg/azure/fake/mockclient.go]: the resource
    naming helpers, the data-disk builder, the virtual-machine definition
    builder, the creation workflow [createVMNicDisk] and the teardown
    workflow [deleteVMNicDisks], followed by the properties that the
    specification states about them. *)

From Stdlib Require Import ZArith Lia Ascii String.
From stdpp Require Import base option list strings gmap pretty.

Local Open Scope Z_scope.
Local Open Scope string_scope.
Local Open Scope list_scope.

(** ** Go run-time behaviour shared by all functions *)

Module Go.

(** The run-time panics the embedded code can raise. *)
Inductive panic : Type :=
| NilDereference
| IndexOutOfRange (index : nat) (len : nat)
| TypeAssertion.

(** A computation either yields a value or panics. *)
Inductive outcome (A : Type) : Type :=
| Val (a : A)
| Panic (p : panic).
Global Arguments Val {A} a.
Global Arguments Panic {A} p.

Global Instance outcome_ret : MRet outcome := fun A a => Val a.
Global Instance outcome_bind : MBind outcome := fun A B f m =>
  match m with
  | Val a => f a
  | Panic p => Panic p
  end.

(** [*p] on a pointer: nil panics. *)
Definition deref {A : Type} (p : option A) : outcome A :=
  match p with
  | Some a => Val a
  | None => Panic NilDereference
  end.

(** [s[i]] on a slice: out of range panics. *)
Definition index {A : Type} (s : list A) (i : nat) : outcome A :=
  match s !! i with
  | Some a => Val a
  | None => Panic (IndexOutOfRange i (length s))
  end.

(** Conversion of an integer to [int32]: the low 32 bits, signed. *)
Definition int32 (z : Z) : Z := (z + 2 ^ 31) `mod` 2 ^ 32 - 2 ^ 31.

(** [%d] and [strconv.Itoa]: decimal digits, with a leading minus sign
    for negative numbers. *)
Definition fmt_d (z : Z) : string := pretty z.

(** [strings.Split(s, sep)] for a separator [sep] of one byte: the
    pieces of [s] between the occurrences of the separator, in order;
    there is always one piece more than there are separators. *)
Fixpoint split_acc (sep : ascii) (s : string) (piece : string) : list string :=
  match s with
  | EmptyString => [String.rev piece]
  | String c s' =>
      if Ascii.eqb c sep
      then String.rev piece :: split_acc sep s' EmptyString
      else split_acc sep s' (String c piece)
  end.

Definition strings_Split (s : string) (sep : ascii) : list string :=
  split_acc sep s EmptyString.

(** [base64.StdEncoding.EncodeToString]: three bytes become four
    characters of the standard alphabet, the tail is padded with [=]. *)
Definition base64_alphabet : string :=
  "ABCDEFGHIJKLMNOPQRSTUVWXYZabcdefghijklmnopqrstuvwxyz0123456789+/".

Definition base64_char (n : N) : ascii :=
  match String.get (N.to_nat n) base64_alphabet with
  | Some c => c
  | None => "="%char
  end.

Fixpoint base64_EncodeToString (s : string) : string :=
  match s with
  | EmptyString => EmptyString
  | String a EmptyString =>
      let x := N_of_ascii a in
      String (base64_char (x / 4))
        (String (base64_char (x `mod` 4 * 16)) "==")
  | String a (String b EmptyString) =>
      let x := N_of_ascii a in
      let y := N_of_ascii b in
      String (base64_char (x / 4))
        (String (base64_char (x `mod` 4 * 16 + y / 16))
           (String (base64_char (y `mod` 16 * 4)) "="))
  | String a (String b (String c rest)) =>
      let x := N_of_ascii a in
      let y := N_of_ascii b in
      let z := N_of_ascii c in
      String (base64_char (x / 4))
        (String (base64_char (x `mod` 4 * 16 + y / 16))
           (String (base64_char (y `mod` 16 * 4 + z / 64))
              (String (base64_char (z `mod` 64))
                 (base64_EncodeToString rest))))
  end%N.

(** Number of occurrences of a byte in a string. *)
Fixpoint count_byte (c : ascii) (s : string) : nat :=
  match s with
  | EmptyString => 0%nat
  | String c' s' => ((if Ascii.eqb c' c then 1 else 0) + count_byte c s')%nat
  end.

End Go.
Import Go.

(** ** The provisioning request: package [api]

    Only the fields that the driver reads are kept.  A Go pointer is an
    [option], a slice a [list] (the nil slice is the empty list) and a
    [map[string]string] a [gmap]. *)

Module api.

Record AzureDataDisk : Type := {
  AzureDataDisk_Name : string;
  AzureDataDisk_Lun : option Z;
  AzureDataDisk_Caching : string;
  AzureDataDisk_StorageAccountType : string;
  AzureDataDisk_DiskSizeGB : Z
}.

Record AzureImageReference : Type := {
  AzureImageReference_ID : string;
  AzureImageReference_URN : option string
}.

Record AzureOSDisk : Type := {
  AzureOSDisk_Caching : string;
  AzureOSDisk_StorageAccountType : string; (* .ManagedDisk.StorageAccountType *)
  AzureOSDisk_DiskSizeGB : Z;
  AzureOSDisk_CreateOption : string
}.

Record AzureStorageProfile : Type := {
  ImageReference : AzureImageReference;
  OsDisk : AzureOSDisk;
  DataDisks : list AzureDataDisk
}.

Record AzureOSProfile : Type := {
  AdminUsername : string;
  DisablePasswordAuthentication : bool; (* .LinuxConfiguration. *)
  SSH_PublicKeys_Path : string;         (* .LinuxConfiguration.SSH.PublicKeys.Path *)
  SSH_PublicKeys_KeyData : string       (* .LinuxConfiguration.SSH.PublicKeys.KeyData *)
}.

Record AzureSubResource : Type := { AzureSubResource_ID : string }.

Record AzureVirtualMachineProperties : Type := {
  HardwareProfile_VMSize : string;
  StorageProfile : AzureStorageProfile;
  OsProfile : AzureOSProfile;
  NetworkProfile_AcceleratedNetworking : option bool;
  AvailabilitySet : option AzureSubResource;
  IdentityID : option string;
  Zone : option Z
}.

Record AzureSubnetInfo : Type := {
  VnetName : string;
  VnetResourceGroup : option string;
  SubnetName : string
}.

Record AzureProviderSpec : Type := {
  Location : string;
  Tags : gmap string string;
  Properties : AzureVirtualMachineProperties;
  ResourceGroup : string;
  SubnetInfo : AzureSubnetInfo
}.

End api.
Import api.

(** ** Resource naming *)

Definition nicSuffix : string := "-nic".
Definition diskSuffix : string := "-os-disk".
Definition dataDiskSuffix : string := "-data-disk".

Definition prometheusServiceSubnet : string := "subnet".
Definition prometheusServiceVM : string := "virtual_machine".
Definition prometheusServiceNIC : string := "network_interfaces".
Definition prometheusServiceDisk : string := "disks".

Definition dependencyNameFromVMName (vmName suffix : string) : string :=
  vmName +:+ suffix.

Definition dependencyNameFromVMNameAndDependency (dependency vmName suffix : string) : string :=
  vmName +:+ "-" +:+ dependency +:+ suffix.

Definition getAzureDataDiskPrefix (name : string) (lun : option Z) : outcome string :=
  if bool_decide (name ≠ "")
  then l ← deref lun; mret (name +:+ "-" +:+ fmt_d l)
  else l ← deref lun; mret (fmt_d l).

(** The LUN pointer chosen inside both loops over the data disks: the
    descriptor's own when it has one, else a pointer to [int32(i)]. *)
Definition lunOrPosition (lun : option Z) (i : nat) : option Z :=
  match lun with
  | Some l => Some l
  | None => Some (int32 (Z.of_nat i))
  end.

Fixpoint getAzureDataDiskNames_loop (vmname suffix : string)
    (i : nat) (rest : list AzureDataDisk) (azureDataDiskNames : list string)
    : outcome (list string) :=
  match rest with
  | [] => mret azureDataDiskNames
  | disk :: rest' =>
      let diskLun := lunOrPosition (AzureDataDisk_Lun disk) i in
      prefix ← getAzureDataDiskPrefix (AzureDataDisk_Name disk) diskLun;
      getAzureDataDiskNames_loop vmname suffix (S i) rest'
        (<[i := dependencyNameFromVMNameAndDependency prefix vmname suffix]> azureDataDiskNames)
  end.

Definition getAzureDataDiskNames (azureDataDisks : list AzureDataDisk) (vmname suffix : string)
    : outcome (list string) :=
  getAzureDataDiskNames_loop vmname suffix 0 azureDataDisks
    (replicate (length azureDataDisks) "").

(** ** The Azure SDK values the driver builds or inspects *)

Module network.

Record Subnet : Type := {
  Subnet_ID : option string;
  Subnet_Name : option string
}.

Record InterfaceIPConfiguration : Type := {
  InterfaceIPConfiguration_Name : option string;
  PrivateIPAllocationMethod : string;
  InterfaceIPConfiguration_Subnet : option Subnet
}.

Definition Dynamic : string := "Dynamic".

Record InterfacePropertiesFormat : Type := {
  IPConfigurations : option (list InterfaceIPConfiguration);
  EnableIPForwarding : option bool;
  EnableAcceleratedNetworking : option bool
}.

Record Interface : Type := {
  Interface_ID : option string;
  Interface_Name : option string;
  Interface_Location : option string;
  Interface_Properties : option InterfacePropertiesFormat;
  Interface_Tags : gmap string (option string)
}.

End network.

Module compute.

Definition CachingTypesNone : string := "None".
Definition DiskCreateOptionTypesEmpty : string := "Empty".
Definition ResourceIdentityTypeUserAssigned : string := "UserAssigned".

Record ImageReference : Type := {
  ImageReference_Publisher : option string;
  ImageReference_Offer : option string;
  ImageReference_Sku : option string;
  ImageReference_Version : option string;
  ImageReference_ID : option string
}.

Record ManagedDiskParameters : Type := { StorageAccountType : string }.

Record DataDisk : Type := {
  DataDisk_Lun : option Z;
  DataDisk_Name : option string;
  DataDisk_Caching : string;
  DataDisk_ManagedDisk : option ManagedDiskParameters;
  DataDisk_DiskSizeGB : option Z;
  DataDisk_CreateOption : string
}.

Record OSDisk : Type := {
  OSDisk_Name : option string;
  OSDisk_Caching : string;
  OSDisk_ManagedDisk : option ManagedDiskParameters;
  OSDisk_DiskSizeGB : option Z;
  OSDisk_CreateOption : string
}.

Record StorageProfile : Type := {
  StorageProfile_ImageReference : option ImageReference;
  StorageProfile_OsDisk : option OSDisk;
  StorageProfile_DataDisks : option (list DataDisk)
}.

Record SSHPublicKey : Type := {
  SSHPublicKey_Path : option string;
  SSHPublicKey_KeyData : option string
}.

Record LinuxConfiguration : Type := {
  LinuxConfiguration_DisablePasswordAuthentication : option bool;
  LinuxConfiguration_SSH_PublicKeys : option (list SSHPublicKey) (* .SSH is never nil *)
}.

Record OSProfile : Type := {
  ComputerName : option string;
  OSProfile_AdminUsername : option string;
  CustomData : option string;
  OSProfile_LinuxConfiguration : option LinuxConfiguration
}.

Record NetworkInterfaceReference : Type := {
  NetworkInterfaceReference_ID : option string;
  Primary : option bool
}.

Record SubResource : Type := { SubResource_ID : option string }.

Record VirtualMachineProperties : Type := {
  HardwareProfile_VMSize : string;
  VM_StorageProfile : option StorageProfile;
  VM_OsProfile : option OSProfile;
  NetworkProfile_NetworkInterfaces : option (list NetworkInterfaceReference);
  VM_AvailabilitySet : option SubResource
}.

Record Plan : Type := {
  Plan_Name : option string;
  Plan_Product : option string;
  Plan_Publisher : option string
}.

Record VirtualMachineIdentity : Type := {
  Identity_Type : string;
  UserAssignedIdentities : gset string
}.

Record VirtualMachine : Type := {
  VM_ID : option string;
  VM_Name : option string;
  VM_Plan : option Plan;
  VM_Location : option string;
  VM_Properties : option VirtualMachineProperties;
  VM_Zones : option (list string);
  VM_Identity : option VirtualMachineIdentity;
  VM_Tags : gmap string (option string)
}.

Record PurchasePlan : Type := {
  PurchasePlan_Publisher : option string;
  PurchasePlan_Name : option string;
  PurchasePlan_Product : option string
}.

Record VirtualMachineImageProperties : Type := {
  Image_Plan : option PurchasePlan
}.

(** [VirtualMachineImage] embeds a pointer to its properties; reading
    the promoted field [Plan] goes through that pointer. *)
Record VirtualMachineImage : Type := {
  Image_Properties : option VirtualMachineImageProperties
}.

End compute.

Module marketplaceordering.

Record AgreementProperties : Type := { Accepted : option bool }.

(** [AgreementTerms] embeds a pointer to its properties, of which the
    driver touches [Accepted] only. *)
Record AgreementTerms : Type := {
  Agreement_Properties : option AgreementProperties
}.

End marketplaceordering.

(** ** The driver object and the request: packages [corev1], [driver] *)

Record Secret : Type := { Data : gmap string string }.

Record MachineClass : Type := {
  MachineClass_Name : string;
  ProviderSpec_Raw : string
}.

Record CreateMachineRequest : Type := {
  Machine_Name : string;
  Request_MachineClass : MachineClass;
  Request_Secret : Secret
}.

(** The fields of [MachinePlugin] other than its session provider. *)
Record MachinePlugin : Type := {
  Plugin_AzureProviderSpec : option AzureProviderSpec;
  Plugin_Secret : option Secret
}.

(** ** Builders of the interface, disk and machine definitions *)

Definition tagList (tags : gmap string string) : gmap string (option string) :=
  Some <$> tags.

Definition getNICParameters (d : MachinePlugin) (vmName : string) (subnet : network.Subnet)
    : outcome network.Interface :=
  let nicName := dependencyNameFromVMName vmName nicSuffix in
  spec ← deref (Plugin_AzureProviderSpec d);
  let location := Location spec in
  let enableIPForwarding := true in
  mret {|
    network.Interface_ID := None;
    network.Interface_Name := Some nicName;
    network.Interface_Location := Some location;
    network.Interface_Properties := Some {|
      network.IPConfigurations := Some [ {|
        network.InterfaceIPConfiguration_Name := Some nicName;
        network.PrivateIPAllocationMethod := network.Dynamic;
        network.InterfaceIPConfiguration_Subnet := Some subnet
      |} ];
      network.EnableIPForwarding := Some enableIPForwarding;
      network.EnableAcceleratedNetworking :=
        NetworkProfile_AcceleratedNetworking (Properties spec)
    |};
    network.Interface_Tags := tagList (Tags spec)
  |}.

Fixpoint generateDataDisks_loop (vmName : string) (i : nat)
    (rest : list AzureDataDisk) (dataDisks : list compute.DataDisk)
    : outcome (list compute.DataDisk) :=
  match rest with
  | [] => mret dataDisks
  | azureDataDisk :: rest' =>
      let dataDiskLun := lunOrPosition (AzureDataDisk_Lun azureDataDisk) i in
      prefix ← getAzureDataDiskPrefix (AzureDataDisk_Name azureDataDisk) dataDiskLun;
      let dataDiskName :=
        dependencyNameFromVMNameAndDependency prefix vmName dataDiskSuffix in
      let caching :=
        if bool_decide (AzureDataDisk_Caching azureDataDisk ≠ "")
        then AzureDataDisk_Caching azureDataDisk
        else compute.CachingTypesNone in
      let dataDiskSize := AzureDataDisk_DiskSizeGB azureDataDisk in
      let dataDisk := {|
        compute.DataDisk_Lun := dataDiskLun;
        compute.DataDisk_Name := Some dataDiskName;
        compute.DataDisk_Caching := caching;
        compute.DataDisk_ManagedDisk := Some {|
          compute.StorageAccountType := AzureDataDisk_StorageAccountType azureDataDisk
        |};
        compute.DataDisk_DiskSizeGB := Some dataDiskSize;
        compute.DataDisk_CreateOption := compute.DiskCreateOptionTypesEmpty
      |} in
      generateDataDisks_loop vmName (S i) rest' (dataDisks ++ [dataDisk])
  end.

Definition generateDataDisks (vmName : string) (azureDataDisks : list AzureDataDisk)
    : outcome (list compute.DataDisk) :=
  generateDataDisks_loop vmName 0 azureDataDisks [].

Definition getImageReference (d : MachinePlugin) : outcome compute.ImageReference :=
  spec ← deref (Plugin_AzureProviderSpec d);
  let imageRefClass := ImageReference (StorageProfile (Properties spec)) in
  if bool_decide (AzureImageReference_ID imageRefClass ≠ "")
  then mret {|
    compute.ImageReference_Publisher := None;
    compute.ImageReference_Offer := None;
    compute.ImageReference_Sku := None;
    compute.ImageReference_Version := None;
    compute.ImageReference_ID := Some (AzureImageReference_ID imageRefClass)
  |}
  else
    urn ← deref (AzureImageReference_URN imageRefClass);
    let splits := strings_Split urn ":" in
    publisher ← index splits 0;
    offer ← index splits 1;
    sku ← index splits 2;
    version ← index splits 3;
    mret {|
      compute.ImageReference_Publisher := Some publisher;
      compute.ImageReference_Offer := Some offer;
      compute.ImageReference_Sku := Some sku;
      compute.ImageReference_Version := Some version;
      compute.ImageReference_ID := None
    |}.

(** Assignments to fields of an already built machine definition; the
    nested ones go through the pointers to the properties. *)
Definition with_Properties (vm : compute.VirtualMachine)
    (props : compute.VirtualMachineProperties) : compute.VirtualMachine :=
  {| compute.VM_ID := compute.VM_ID vm;
     compute.VM_Name := compute.VM_Name vm;
     compute.VM_Plan := compute.VM_Plan vm;
     compute.VM_Location := compute.VM_Location vm;
     compute.VM_Properties := Some props;
     compute.VM_Zones := compute.VM_Zones vm;
     compute.VM_Identity := compute.VM_Identity vm;
     compute.VM_Tags := compute.VM_Tags vm |}.

Definition set_DataDisks (vm : compute.VirtualMachine)
    (dataDisks : list compute.DataDisk) : outcome compute.VirtualMachine :=
  props ← deref (compute.VM_Properties vm);
  profile ← deref (compute.VM_StorageProfile props);
  mret (with_Properties vm {|
    compute.HardwareProfile_VMSize := compute.HardwareProfile_VMSize props;
    compute.VM_StorageProfile := Some {|
      compute.StorageProfile_ImageReference := compute.StorageProfile_ImageReference profile;
      compute.StorageProfile_OsDisk := compute.StorageProfile_OsDisk profile;
      compute.StorageProfile_DataDisks := Some dataDisks
    |};
    compute.VM_OsProfile := compute.VM_OsProfile props;
    compute.NetworkProfile_NetworkInterfaces := compute.NetworkProfile_NetworkInterfaces props;
    compute.VM_AvailabilitySet := compute.VM_AvailabilitySet props
  |}).

Definition set_AvailabilitySet (vm : compute.VirtualMachine)
    (availabilitySet : compute.SubResource) : outcome compute.VirtualMachine :=
  props ← deref (compute.VM_Properties vm);
  mret (with_Properties vm {|
    compute.HardwareProfile_VMSize := compute.HardwareProfile_VMSize props;
    compute.VM_StorageProfile := compute.VM_StorageProfile props;
    compute.VM_OsProfile := compute.VM_OsProfile props;
    compute.NetworkProfile_NetworkInterfaces := compute.NetworkProfile_NetworkInterfaces props;
    compute.VM_AvailabilitySet := Some availabilitySet
  |}).

Definition set_Zones (vm : compute.VirtualMachine) (zones : list string)
    : compute.VirtualMachine :=
  {| compute.VM_ID := compute.VM_ID vm;
     compute.VM_Name := compute.VM_Name vm;
     compute.VM_Plan := compute.VM_Plan vm;
     compute.VM_Location := compute.VM_Location vm;
     compute.VM_Properties := compute.VM_Properties vm;
     compute.VM_Zones := Some zones;
     compute.VM_Identity := compute.VM_Identity vm;
     compute.VM_Tags := compute.VM_Tags vm |}.

Definition set_Identity (vm : compute.VirtualMachine)
    (identity : compute.VirtualMachineIdentity) : compute.VirtualMachine :=
  {| compute.VM_ID := compute.VM_ID vm;
     compute.VM_Name := compute.VM_Name vm;
     compute.VM_Plan := compute.VM_Plan vm;
     compute.VM_Location := compute.VM_Location vm;
     compute.VM_Properties := compute.VM_Properties vm;
     compute.VM_Zones := compute.VM_Zones vm;
     compute.VM_Identity := Some identity;
     compute.VM_Tags := compute.VM_Tags vm |}.

Definition getVMParameters (d : MachinePlugin) (vmName : string)
    (image : option compute.VirtualMachineImage) (networkInterfaceReferenceID : string)
    : outcome compute.VirtualMachine :=
  let diskName := dependencyNameFromVMName vmName diskSuffix in
  secret ← deref (Plugin_Secret d);
  let UserDataEnc := base64_EncodeToString (default "" (Data secret !! "userData")) in
  spec ← deref (Plugin_AzureProviderSpec d);
  let location := Location spec in
  let properties := Properties spec in
  imageReference ← getImageReference d;
  plan ← match image with
         | Some image =>
             imageProperties ← deref (compute.Image_Properties image);
             match compute.Image_Plan imageProperties with
             | Some imagePlan => mret (Some {|
                 compute.Plan_Name := compute.PurchasePlan_Name imagePlan;
                 compute.Plan_Product := compute.PurchasePlan_Product imagePlan;
                 compute.Plan_Publisher := compute.PurchasePlan_Publisher imagePlan
               |})
             | None => mret None
             end
         | None => mret None
         end;
  let VMParameters := {|
    compute.VM_ID := None;
    compute.VM_Name := Some vmName;
    compute.VM_Plan := plan;
    compute.VM_Location := Some location;
    compute.VM_Properties := Some {|
      compute.HardwareProfile_VMSize := HardwareProfile_VMSize properties;
      compute.VM_StorageProfile := Some {|
        compute.StorageProfile_ImageReference := Some imageReference;
        compute.StorageProfile_OsDisk := Some {|
          compute.OSDisk_Name := Some diskName;
          compute.OSDisk_Caching := AzureOSDisk_Caching (OsDisk (StorageProfile properties));
          compute.OSDisk_ManagedDisk := Some {|
            compute.StorageAccountType :=
              AzureOSDisk_StorageAccountType (OsDisk (StorageProfile properties))
          |};
          compute.OSDisk_DiskSizeGB :=
            Some (AzureOSDisk_DiskSizeGB (OsDisk (StorageProfile properties)));
          compute.OSDisk_CreateOption :=
            AzureOSDisk_CreateOption (OsDisk (StorageProfile properties))
        |};
        compute.StorageProfile_DataDisks := None
      |};
      compute.VM_OsProfile := Some {|
        compute.ComputerName := Some vmName;
        compute.OSProfile_AdminUsername := Some (AdminUsername (OsProfile properties));
        compute.CustomData := Some UserDataEnc;
        compute.OSProfile_LinuxConfiguration := Some {|
          compute.LinuxConfiguration_DisablePasswordAuthentication :=
            Some (DisablePasswordAuthentication (OsProfile properties));
          compute.LinuxConfiguration_SSH_PublicKeys := Some [ {|
            compute.SSHPublicKey_Path := Some (SSH_PublicKeys_Path (OsProfile properties));
            compute.SSHPublicKey_KeyData := Some (SSH_PublicKeys_KeyData (OsProfile properties))
          |} ]
        |}
      |};
      compute.NetworkProfile_NetworkInterfaces := Some [ {|
        compute.NetworkInterfaceReference_ID := Some networkInterfaceReferenceID;
        compute.Primary := Some true
      |} ];
      compute.VM_AvailabilitySet := None
    |};
    compute.VM_Zones := None;
    compute.VM_Identity := None;
    compute.VM_Tags := tagList (Tags spec)
  |} in
  VMParameters ←
    (if bool_decide (0 < length (DataDisks (StorageProfile properties)))%nat
     then dataDisks ← generateDataDisks vmName (DataDisks (StorageProfile properties));
          set_DataDisks VMParameters dataDisks
     else mret VMParameters);
  VMParameters ←
    match Zone properties with
    | Some zone => mret (set_Zones VMParameters [fmt_d zone])
    | None =>
        match AvailabilitySet properties with
        | Some availabilitySet =>
            set_AvailabilitySet VMParameters
              {| compute.SubResource_ID := Some (AzureSubResource_ID availabilitySet) |}
        | None => mret VMParameters
        end
    end;
  match IdentityID properties with
  | Some identityID =>
      if bool_decide (identityID ≠ "")
      then mret (set_Identity VMParameters {|
             compute.Identity_Type := compute.ResourceIdentityTypeUserAssigned;
             compute.UserAssignedIdentities := {[ identityID ]}
           |})
      else mret VMParameters
  | None => mret VMParameters
  end.

(** ** The backend: clients, collaborators of package [spi], and the world

    Every operation of the backend is a function on an abstract world.
    The driver's own state is the plugin object, the world, the list of
    the collaborator calls issued so far, each with the error it came back
    with, and the error lines written with [klog.Errorf].  Informational
    log lines are not recorded. *)

Inductive result (error A : Type) : Type :=
| Ok (a : A)
| Err (err : error).
Global Arguments Ok {error A} a.
Global Arguments Err {error A} err.

Definition result_err {error A : Type} (r : result error A) : option error :=
  match r with
  | Ok _ => None
  | Err err => Some err
  end.

Inductive Call : Type :=
| SPI_Setup
| Subnet_Get (resourceGroup vnetName subnetName expand : string)
| Nic_CreateOrUpdate (resourceGroup name : string) (parameters : network.Interface)
| NICFuture_WaitForCompletionRef
| NICFuture_Result
| Images_Get (location publisher offer sku version : string)
| Marketplace_Get (publisher product name : string)
| Marketplace_Create (publisher product name : string)
    (agreement : marketplaceordering.AgreementTerms)
| VM_CreateOrUpdate (resourceGroup name : string) (parameters : compute.VirtualMachine)
| VMFuture_WaitForCompletionRef
| VMFuture_Result
| VM_Get (resourceGroup name expand : string)
| spi_WaitForDataDiskDetachment (resourceGroup : string) (vm : compute.VirtualMachine)
| spi_DeleteVM (resourceGroup name : string)
| spi_FetchAttachedVMfromNIC (resourceGroup nicName : string)
| spi_DeleteNIC (resourceGroup nicName : string)
| spi_DiskDeleter (resourceGroup diskName : string)
| spi_OnARMAPISuccess (service message : string)
| spi_OnARMAPIErrorFail (service message : string).

Section Driver.

Context {error World Clients NICFuture VMFuture : Type}.

(** What the driver is given: the methods of the error values, the
    library functions, the decoder of the request, the session provider,
    the operations of the clients and of the futures they return, and
    the helpers of package [spi].  The JSON decoding and the validation
    behind the decoder, the Unicode tables behind [strings.ToLower] and
    the sources of package [spi] are not part of the file, so that these
    are taken as they come. *)
Record Env : Type := {
  Error : error → string;
  fmt_Errorf : string → error;
  strings_ToLower : string → string;
  decodeProviderSpecAndSecret : MachineClass → Secret → result error AzureProviderSpec;
  Setup : Secret → World → result error Clients * World;
  GetSubnet_Get : Clients → string → string → string → string →
    World → result error network.Subnet * World;
  GetNic_CreateOrUpdate : Clients → string → string → network.Interface →
    World → result error NICFuture * World;
  NICFuture_wait : NICFuture → Clients → World → option error * World;
  GetNic_is_InterfacesClient : Clients → bool;
  NICFuture_result : NICFuture → Clients → World → result error network.Interface * World;
  GetImages_Get : Clients → string → string → string → string → string →
    World → result error compute.VirtualMachineImage * World;
  GetMarketplace_Get : Clients → string → string → string →
    World → result error marketplaceordering.AgreementTerms * World;
  GetMarketplace_Create : Clients → string → string → string →
    marketplaceordering.AgreementTerms →
    World → result error marketplaceordering.AgreementTerms * World;
  GetVM_CreateOrUpdate : Clients → string → string → compute.VirtualMachine →
    World → result error VMFuture * World;
  VMFuture_wait : VMFuture → Clients → World → option error * World;
  GetVM_is_VirtualMachinesClient : Clients → bool;
  VMFuture_result : VMFuture → Clients → World → result error compute.VirtualMachine * World;
  GetVM_Get : Clients → string → string → string →
    World → result error compute.VirtualMachine * World;
  NotFound : error → bool;
  OnARMAPIErrorFail : string → error → string → error;
  WaitForDataDiskDetachment : Clients → string → compute.VirtualMachine →
    World → option error * World;
  DeleteVM : Clients → string → string → World → option error * World;
  FetchAttachedVMfromNIC : Clients → string → string → World → result error string * World;
  DeleteNIC : Clients → string → string → World → option error * World;
  DiskDeleter : Clients → string → string → World → option error * World;
  combineErrors : list error → error
}.

Definition Event : Type := Call * option error.

Record State : Type := {
  plugin : MachinePlugin;
  world : World;
  trace : list Event;
  klog : list string
}.

Definition M (A : Type) : Type := State → outcome A * State.

Global Instance M_ret : MRet M := fun A a s => (Val a, s).
Global Instance M_bind : MBind M := fun A B f m s =>
  match m s with
  | (Val a, s') => f a s'
  | (Panic p, s') => (Panic p, s')
  end.

Definition lift {A : Type} (o : outcome A) : M A := fun s => (o, s).

Definition record (s : State) (w : World) (c : Call) (err : option error) : State :=
  {| plugin := plugin s; world := w; trace := trace s ++ [(c, err)]; klog := klog s |}.

(** A call that returns a value and an error. *)
Definition call {A : Type} (c : Call) (op : World → result error A * World)
    : M (result error A) := fun s =>
  let '(r, w) := op (world s) in (Val r, record s w c (result_err r)).

(** A call that returns an error only. *)
Definition call_err (c : Call) (op : World → option error * World)
    : M (option error) := fun s =>
  let '(err, w) := op (world s) in (Val err, record s w c err).

Definition klog_Errorf (line : string) : M unit := fun s =>
  (Val tt, {| plugin := plugin s; world := world s; trace := trace s;
              klog := klog s ++ [line] |}).

Definition getPlugin : M MachinePlugin := fun s => (Val (plugin s), s).

Definition setAzureProviderSpec (spec : AzureProviderSpec) : M unit := fun s =>
  (Val tt, {| plugin := {| Plugin_AzureProviderSpec := Some spec;
                           Plugin_Secret := Plugin_Secret (plugin s) |};
              world := world s; trace := trace s; klog := klog s |}).

(** [x.(T)] on an interface value. *)
Definition assertType (holds : bool) : M unit :=
  lift (if holds then Val tt else Panic TypeAssertion).

Variable env : Env.

Definition onARMAPISuccess (service message : string) : M unit := fun s =>
  (Val tt, record s (world s) (spi_OnARMAPISuccess service message) None).

Definition onARMAPIErrorFail (service : string) (err : error) (message : string)
    : M error := fun s =>
  (Val (OnARMAPIErrorFail env service err message),
   record s (world s) (spi_OnARMAPIErrorFail service message) None).

(** Modelled from the spec: [spi.RunInParallel], whose source is not part
    of the file.  It runs every deleter, waits for all of them and
    aggregates the failures into one error; completed deletions are kept.
    The branches share no state of the driver, and the model runs them
    one after the other in the order of the list. *)
Fixpoint runAll (deleters : list (M (option error))) : M (list error) :=
  match deleters with
  | [] => mret []
  | deleter :: rest =>
      err ← deleter;
      errs ← runAll rest;
      mret (match err with Some e => e :: errs | None => errs end)
  end.

Definition RunInParallel (deleters : list (M (option error))) : M (option error) :=
  errs ← runAll deleters;
  mret (match errs with [] => None | _ :: _ => Some (combineErrors env errs) end).

(** *** Teardown *)

Definition nicDeleter (clients : Clients) (resourceGroupName nicName : string)
    : M (option error) :=
  r ← call (spi_FetchAttachedVMfromNIC resourceGroupName nicName)
           (FetchAttachedVMfromNIC env clients resourceGroupName nicName);
  match r with
  | Err err =>
      if NotFound env err
      then mret None
      else mret (Some err)
  | Ok vmHoldingNic =>
      if bool_decide (vmHoldingNic ≠ "")
      then mret (Some (fmt_Errorf env
             ("Cannot delete NIC " +:+ nicName +:+
              " because it is attached to VM " +:+ vmHoldingNic)))
      else call_err (spi_DeleteNIC resourceGroupName nicName)
                    (DeleteNIC env clients resourceGroupName nicName)
  end.

Definition diskDeleter (clients : Clients) (resourceGroupName diskName : string)
    : M (option error) :=
  call_err (spi_DiskDeleter resourceGroupName diskName)
           (DiskDeleter env clients resourceGroupName diskName).

Definition deleters (clients : Clients) (resourceGroupName nicName diskName : string)
    (dataDiskNames : list string) : list (M (option error)) :=
  [nicDeleter clients resourceGroupName nicName;
   diskDeleter clients resourceGroupName diskName]
  ++ map (diskDeleter clients resourceGroupName) dataDiskNames.

(** The first half of [deleteVMNicDisks]: [Some err] when the function
    returns [err] before the deleters are started. *)
Definition deleteVM_first (clients : Clients) (resourceGroupName VMName : string)
    : M (option error) :=
  r ← call (VM_Get resourceGroupName VMName "")
           (GetVM_Get env clients resourceGroupName VMName "");
  match r with
  | Ok vm =>
      _ ← call_err (spi_WaitForDataDiskDetachment resourceGroupName vm)
                   (WaitForDataDiskDetachment env clients resourceGroupName vm);
      deleteErr ← call_err (spi_DeleteVM resourceGroupName VMName)
                           (DeleteVM env clients resourceGroupName VMName);
      match deleteErr with
      | Some err => mret (Some err)
      | None =>
          name ← lift (deref (compute.VM_Name vm));
          _ ← onARMAPISuccess prometheusServiceVM ("VM Get was successful for " +:+ name);
          mret None
      end
  | Err vmErr =>
      if negb (NotFound env vmErr)
      then err ← onARMAPIErrorFail prometheusServiceVM vmErr "vm.Get"; mret (Some err)
      else mret None
  end.

Definition deleteVMNicDisks (clients : Clients)
    (resourceGroupName VMName nicName diskName : string) (dataDiskNames : list string)
    : M (option error) :=
  returned ← deleteVM_first clients resourceGroupName VMName;
  match returned with
  | Some err => mret (Some err)
  | None =>
      RunInParallel (deleters clients resourceGroupName nicName diskName dataDiskNames)
  end.

(** *** Creation *)

(** The block repeated after every failed creation step: tear down what
    may exist, log the error of the teardown, and go on to return. *)
Definition cleanUp (clients : Clients)
    (resourceGroupName vmName nicName diskName : string) (dataDiskNames : list string)
    : M unit :=
  deleteErr ← deleteVMNicDisks clients resourceGroupName vmName nicName diskName
                dataDiskNames;
  match deleteErr with
  | Some err => klog_Errorf ("Error occurred during resource clean up: " +:+ Error env err)
  | None => mret tt
  end.

(** The image block of [createVMNicDisk]: [Ok vmImageRef] when the
    function goes on with that image, [Err err] when it returns
    [nil, err] from inside the block. *)
Definition resolveImage (req : CreateMachineRequest) (clients : Clients)
    (resourceGroupName vmName nicName diskName : string) (dataDiskNames : list string)
    : M (result error (option compute.VirtualMachineImage)) :=
  d ← getPlugin;
  spec ← lift (deref (Plugin_AzureProviderSpec d));
  let imageRefClass := ImageReference (StorageProfile (Properties spec)) in
  if bool_decide (AzureImageReference_ID imageRefClass = "")
  then
    imageReference ← lift (getImageReference d);
    publisher ← lift (deref (compute.ImageReference_Publisher imageReference));
    offer ← lift (deref (compute.ImageReference_Offer imageReference));
    sku ← lift (deref (compute.ImageReference_Sku imageReference));
    version ← lift (deref (compute.ImageReference_Version imageReference));
    r ← call (Images_Get (Location spec) publisher offer sku version)
             (GetImages_Get env clients (Location spec) publisher offer sku version);
    match r with
    | Err err =>
        _ ← cleanUp clients resourceGroupName vmName nicName diskName dataDiskNames;
        err' ← onARMAPIErrorFail prometheusServiceVM err
                 ("VirtualMachineImagesclientutils.Get failed for " +:+
                  MachineClass_Name (Request_MachineClass req));
        mret (Err err')
    | Ok vmImage =>
        imageProperties ← lift (deref (compute.Image_Properties vmImage));
        match compute.Image_Plan imageProperties with
        | None => mret (Ok (Some vmImage))
        | Some plan =>
            planPublisher ← lift (deref (compute.PurchasePlan_Publisher plan));
            planProduct ← lift (deref (compute.PurchasePlan_Product plan));
            planName ← lift (deref (compute.PurchasePlan_Name plan));
            r ← call (Marketplace_Get planPublisher planProduct planName)
                     (GetMarketplace_Get env clients planPublisher planProduct planName);
            match r with
            | Err err =>
                _ ← cleanUp clients resourceGroupName vmName nicName diskName dataDiskNames;
                err' ← onARMAPIErrorFail prometheusServiceVM err
                         ("MarketplaceAgreementsclient.Get failed for " +:+
                          MachineClass_Name (Request_MachineClass req));
                mret (Err err')
            | Ok agreement =>
                agreementProperties ←
                  lift (deref (marketplaceordering.Agreement_Properties agreement));
                match marketplaceordering.Accepted agreementProperties with
                | Some true => mret (Ok (Some vmImage))
                | _ =>
                    let agreement := {|
                      marketplaceordering.Agreement_Properties :=
                        Some {| marketplaceordering.Accepted := Some true |}
                    |} in
                    r ← call (Marketplace_Create planPublisher planProduct planName agreement)
                             (GetMarketplace_Create env clients planPublisher planProduct
                                planName agreement);
                    match r with
                    | Err err =>
                        _ ← cleanUp clients resourceGroupName vmName nicName diskName
                              dataDiskNames;
                        err' ← onARMAPIErrorFail prometheusServiceVM err
                                 ("MarketplaceAgreementsclientutils.Create failed for " +:+
                                  MachineClass_Name (Request_MachineClass req));
                        mret (Err err')
                    | Ok _ => mret (Ok (Some vmImage))
                    end
                end
            end
        end
    end
  else mret (Ok None).

Definition createVMNicDisk (req : CreateMachineRequest)
    : M (result error compute.VirtualMachine) :=
  match decodeProviderSpecAndSecret env (Request_MachineClass req) (Request_Secret req) with
  | Err err => mret (Err err)
  | Ok providerSpec =>
  _ ← setAzureProviderSpec providerSpec;
  let vmName := strings_ToLower env (Machine_Name req) in
  let resourceGroupName := ResourceGroup providerSpec in
  let vnetName := VnetName (SubnetInfo providerSpec) in
  let subnetName := SubnetName (SubnetInfo providerSpec) in
  let nicName := dependencyNameFromVMName vmName nicSuffix in
  let diskName := dependencyNameFromVMName vmName diskSuffix in
  r ← call SPI_Setup (Setup env (Request_Secret req));
  match r with
  | Err err => mret (Err err)
  | Ok clients =>
  let vnetResourceGroup :=
    match VnetResourceGroup (SubnetInfo providerSpec) with
    | Some group => group
    | None => resourceGroupName
    end in
  dataDiskNames ←
    (if bool_decide (0 < length (DataDisks (StorageProfile (Properties providerSpec))))%nat
     then lift (getAzureDataDiskNames
                  (DataDisks (StorageProfile (Properties providerSpec)))
                  vmName dataDiskSuffix)
     else mret []);
  let rollback :=
    cleanUp clients resourceGroupName vmName nicName diskName dataDiskNames in
  (* Subnet fetching *)
  r ← call (Subnet_Get vnetResourceGroup vnetName subnetName "")
           (GetSubnet_Get env clients vnetResourceGroup vnetName subnetName "");
  match r with
  | Err err =>
      err' ← onARMAPIErrorFail prometheusServiceSubnet err
               ("Subnet.Get failed for " +:+ subnetName +:+ " due to " +:+ Error env err);
      mret (Err err')
  | Ok subnet =>
  _ ← onARMAPISuccess prometheusServiceSubnet "subnet.Get";
  (* NIC creation *)
  d ← getPlugin;
  NICParameters ← lift (getNICParameters d vmName subnet);
  NICParametersName ← lift (deref (network.Interface_Name NICParameters));
  r ← call (Nic_CreateOrUpdate resourceGroupName NICParametersName NICParameters)
           (GetNic_CreateOrUpdate env clients resourceGroupName NICParametersName
              NICParameters);
  match r with
  | Err err =>
      _ ← rollback;
      err' ← onARMAPIErrorFail prometheusServiceNIC err
               ("NIC.CreateOrUpdate failed for " +:+ NICParametersName);
      mret (Err err')
  | Ok NICFuture =>
  waitErr ← call_err NICFuture_WaitForCompletionRef (NICFuture_wait env NICFuture clients);
  match waitErr with
  | Some err =>
      _ ← rollback;
      err' ← onARMAPIErrorFail prometheusServiceNIC err
               ("NIC.WaitForCompletionRef failed for " +:+ NICParametersName);
      mret (Err err')
  | None =>
  _ ← onARMAPISuccess prometheusServiceNIC "NIC.CreateOrUpdate";
  _ ← assertType (GetNic_is_InterfacesClient env clients);
  r ← call NICFuture_Result (NICFuture_result env NICFuture clients);
  match r with
  | Err err =>
      _ ← rollback;
      mret (Err err)
  | Ok NIC =>
  (* VM creation *)
  r ← resolveImage req clients resourceGroupName vmName nicName diskName dataDiskNames;
  match r with
  | Err err => mret (Err err)
  | Ok vmImageRef =>
  d ← getPlugin;
  NICID ← lift (deref (network.Interface_ID NIC));
  VMParameters ← lift (getVMParameters d vmName vmImageRef NICID);
  VMParametersName ← lift (deref (compute.VM_Name VMParameters));
  r ← call (VM_CreateOrUpdate resourceGroupName VMParametersName VMParameters)
           (GetVM_CreateOrUpdate env clients resourceGroupName VMParametersName
              VMParameters);
  match r with
  | Err err =>
      _ ← rollback;
      err' ← onARMAPIErrorFail prometheusServiceVM err
               ("GetVM().CreateOrUpdate failed for " +:+ VMParametersName);
      mret (Err err')
  | Ok VMFuture =>
  waitErr ← call_err VMFuture_WaitForCompletionRef (VMFuture_wait env VMFuture clients);
  match waitErr with
  | Some err =>
      _ ← rollback;
      err' ← onARMAPIErrorFail prometheusServiceVM err
               ("VMFuture.WaitForCompletionRef failed for " +:+ VMParametersName);
      mret (Err err')
  | None =>
  _ ← assertType (GetVM_is_VirtualMachinesClient env clients);
  r ← call VMFuture_Result (VMFuture_result env VMFuture clients);
  match r with
  | Err err =>
      _ ← rollback;
      err' ← onARMAPIErrorFail prometheusServiceVM err
               ("VMFuture.Result failed for " +:+ VMParametersName);
      mret (Err err')
  | Ok VM =>
  _ ← onARMAPISuccess prometheusServiceVM "VM.CreateOrUpdate";
  mret (Ok VM)
  end end end end end end end end end end.

End Driver.

Global Arguments Env : clear implicits.

(** ** What the properties below speak about *)

(** The steps of the creation workflow that come after the subnet has
    been resolved, and the collaborator call each of them is. *)
Inductive step : Type :=
| NicSubmit | NicAwait | NicFetch
| ImageFetch | AgreementFetch | AgreementAccept
| VMSubmit | VMAwait | VMFetch.

Definition creation_step (c : Call) : option step :=
  match c with
  | Nic_CreateOrUpdate _ _ _ => Some NicSubmit
  | NICFuture_WaitForCompletionRef => Some NicAwait
  | NICFuture_Result => Some NicFetch
  | Images_Get _ _ _ _ _ => Some ImageFetch
  | Marketplace_Get _ _ _ => Some AgreementFetch
  | Marketplace_Create _ _ _ _ => Some AgreementAccept
  | VM_CreateOrUpdate _ _ _ => Some VMSubmit
  | VMFuture_WaitForCompletionRef => Some VMAwait
  | VMFuture_Result => Some VMFetch
  | _ => None
  end.

(** The calls that look an image up or handle its marketplace agreement. *)
Definition image_call (c : Call) : bool :=
  match c with
  | Images_Get _ _ _ _ _ | Marketplace_Get _ _ _ | Marketplace_Create _ _ _ _ => true
  | _ => false
  end.

(** The calls that a teardown of the given resources may issue. *)
Definition teardown_calls (resourceGroupName VMName nicName diskName : string)
    (dataDiskNames : list string) (c : Call) : Prop :=
  match c with
  | VM_Get group name _ | spi_DeleteVM group name =>
      group = resourceGroupName ∧ name = VMName
  | spi_WaitForDataDiskDetachment group _ => group = resourceGroupName
  | spi_FetchAttachedVMfromNIC group name | spi_DeleteNIC group name =>
      group = resourceGroupName ∧ name = nicName
  | spi_DiskDeleter group name =>
      group = resourceGroupName ∧ (name = diskName ∨ name ∈ dataDiskNames)
  | spi_OnARMAPISuccess _ _ | spi_OnARMAPIErrorFail _ _ => True
  | _ => False
  end.

(** The calls that create, or tear down, resources of the given names and
    no others. *)
Definition names_resources (resourceGroupName vmName nicName diskName : string)
    (dataDiskNames : list string) (c : Call) : Prop :=
  match c with
  | Nic_CreateOrUpdate group name parameters =>
      group = resourceGroupName ∧ name = nicName ∧
      network.Interface_Name parameters = Some nicName
  | VM_CreateOrUpdate group name parameters =>
      group = resourceGroupName ∧ name = vmName ∧
      compute.VM_Name parameters = Some vmName
  | VM_Get _ _ _ | spi_DeleteVM _ _ | spi_WaitForDataDiskDetachment _ _
  | spi_FetchAttachedVMfromNIC _ _ | spi_DeleteNIC _ _ | spi_DiskDeleter _ _ =>
      teardown_calls resourceGroupName vmName nicName diskName dataDiskNames c
  | _ => True
  end.

Definition is_DeleteNIC (c : Call) : bool :=
  match c with
  | spi_DeleteNIC _ _ => true
  | _ => false
  end.

(** The name that both loops over the data disks derive for the
    descriptor at position [i], and the data disk that
    [generateDataDisks] builds from it. *)
Definition dataDiskLunAt (i : nat) (d : AzureDataDisk) : Z :=
  default (int32 (Z.of_nat i)) (AzureDataDisk_Lun d).

Definition dataDiskNameAt (vmName suffix : string) (i : nat) (d : AzureDataDisk) : string :=
  dependencyNameFromVMNameAndDependency
    (if bool_decide (AzureDataDisk_Name d ≠ "")
     then AzureDataDisk_Name d +:+ "-" +:+ fmt_d (dataDiskLunAt i d)
     else fmt_d (dataDiskLunAt i d))
    vmName suffix.

Definition dataDiskAt (vmName : string) (i : nat) (d : AzureDataDisk) : compute.DataDisk :=
  {| compute.DataDisk_Lun := Some (dataDiskLunAt i d);
     compute.DataDisk_Name := Some (dataDiskNameAt vmName dataDiskSuffix i d);
     compute.DataDisk_Caching :=
       if bool_decide (AzureDataDisk_Caching d ≠ "")
       then AzureDataDisk_Caching d
       else compute.CachingTypesNone;
     compute.DataDisk_ManagedDisk :=
       Some {| compute.StorageAccountType := AzureDataDisk_StorageAccountType d |};
     compute.DataDisk_DiskSizeGB := Some (AzureDataDisk_DiskSizeGB d);
     compute.DataDisk_CreateOption := compute.DiskCreateOptionTypesEmpty |}.

(** The names under which [createVMNicDisk] tears down, and the error it
    returns when a step has failed with [err]. *)
Definition dataDiskNamesOf (vmName : string) (spec : AzureProviderSpec)
    : outcome (list string) :=
  if bool_decide (0 < length (DataDisks (StorageProfile (Properties spec))))%nat
  then getAzureDataDiskNames (DataDisks (StorageProfile (Properties spec))) vmName dataDiskSuffix
  else Val [].

Definition surfaced {error World Clients NICFuture VMFuture : Type}
    (env : Env error World Clients NICFuture VMFuture)
    (req : CreateMachineRequest) (st : step) (err : error) : error :=
  let vmName := strings_ToLower env (Machine_Name req) in
  let nicName := dependencyNameFromVMName vmName nicSuffix in
  let className := MachineClass_Name (Request_MachineClass req) in
  match st with
  | NicSubmit => OnARMAPIErrorFail env prometheusServiceNIC err
                   ("NIC.CreateOrUpdate failed for " +:+ nicName)
  | NicAwait => OnARMAPIErrorFail env prometheusServiceNIC err
                  ("NIC.WaitForCompletionRef failed for " +:+ nicName)
  | NicFetch => err
  | ImageFetch => OnARMAPIErrorFail env prometheusServiceVM err
                    ("VirtualMachineImagesclientutils.Get failed for " +:+ className)
  | AgreementFetch => OnARMAPIErrorFail env prometheusServiceVM err
                        ("MarketplaceAgreementsclient.Get failed for " +:+ className)
  | AgreementAccept => OnARMAPIErrorFail env prometheusServiceVM err
                         ("MarketplaceAgreementsclientutils.Create failed for " +:+ className)
  | VMSubmit => OnARMAPIErrorFail env prometheusServiceVM err
                  ("GetVM().CreateOrUpdate failed for " +:+ vmName)
  | VMAwait => OnARMAPIErrorFail env prometheusServiceVM err
                 ("VMFuture.WaitForCompletionRef failed for " +:+ vmName)
  | VMFetch => OnARMAPIErrorFail env prometheusServiceVM err
                 ("VMFuture.Result failed for " +:+ vmName)
  end.

(** A computation that only appends calls satisfying [P] to the trace and
    leaves the plugin object and the log alone. *)
Definition issues {error World A : Type} (P : Call → Prop) (m : @M error World A) : Prop :=
  ∀ s, plugin (m s).2 = plugin s ∧ klog (m s).2 = klog s ∧
       ∃ evs, trace (m s).2 = trace s ++ evs ∧ Forall (λ ev : Event, P ev.1) evs.

(** The events that a computation started in state [s] appends to the
    trace. *)
Definition issued {error World A : Type} (m : @M error World A) (s : State)
    : list Event :=
  drop (length (trace s)) (trace (m s).2).

(** ** A scripted backend, to run the workflows on concrete inputs *)

Module Fake.

Inductive Reply : Type :=
| Succeed
| SucceedWith (value : string)
| Fail (err : string).

(** The world is the list of the replies still to be given, one per call;
    when it is used up every call succeeds. *)
Definition World : Type := list Reply.

Definition reply {A : Type} (ok : string → A) (w : World) : result string A * World :=
  match w with
  | [] => (Ok (ok ""), [])
  | Succeed :: w' => (Ok (ok ""), w')
  | SucceedWith value :: w' => (Ok (ok value), w')
  | Fail err :: w' => (Err err, w')
  end.

Definition reply_err (w : World) : option string * World :=
  match w with
  | [] => (None, [])
  | Fail err :: w' => (Some err, w')
  | _ :: w' => (None, w')
  end.

Definition lower (c : ascii) : ascii :=
  let n := nat_of_ascii c in
  if bool_decide (65 ≤ n ≤ 90)%nat then ascii_of_nat (n + 32) else c.

Fixpoint ToLower (s : string) : string :=
  match s with
  | EmptyString => EmptyString
  | String c s' => String (lower c) (ToLower s')
  end.

Definition osDisk : AzureOSDisk := {|
  AzureOSDisk_Caching := "None";
  AzureOSDisk_StorageAccountType := "Standard_LRS";
  AzureOSDisk_DiskSizeGB := 50;
  AzureOSDisk_CreateOption := "FromImage"
|}.

Definition spec (image : AzureImageReference) (disks : list AzureDataDisk)
    (zone : option Z) (availabilitySet : option AzureSubResource) : AzureProviderSpec := {|
  Location := "westeurope";
  Tags := {[ "kubernetes.io-cluster" := "1" ]};
  Properties := {|
    HardwareProfile_VMSize := "Standard_DS2_v2";
    StorageProfile := {| ImageReference := image; OsDisk := osDisk; DataDisks := disks |};
    OsProfile := {|
      AdminUsername := "core";
      DisablePasswordAuthentication := true;
      SSH_PublicKeys_Path := "/home/core/.ssh/authorized_keys";
      SSH_PublicKeys_KeyData := "ssh-rsa AAAA"
    |};
    NetworkProfile_AcceleratedNetworking := None;
    AvailabilitySet := availabilitySet;
    IdentityID := None;
    Zone := zone
  |};
  ResourceGroup := "group";
  SubnetInfo := {| VnetName := "vnet"; VnetResourceGroup := None; SubnetName := "subnet-a" |}
|}.

Definition happyDisk : AzureDataDisk := {|
  AzureDataDisk_Name := "";
  AzureDataDisk_Lun := None;
  AzureDataDisk_Caching := "";
  AzureDataDisk_StorageAccountType := "";
  AzureDataDisk_DiskSizeGB := 50
|}.

(** The raw provider spec of the scripted backend is the image: an URN
    when it has a colon, an explicit ID otherwise. *)
Definition image (raw : string) : AzureImageReference :=
  if bool_decide (0 < count_byte ":" raw)%nat
  then {| AzureImageReference_ID := ""; AzureImageReference_URN := Some raw |}
  else {| AzureImageReference_ID := raw; AzureImageReference_URN := None |}.

Definition decode (class : MachineClass) (secret : Secret) : result string AzureProviderSpec :=
  if bool_decide (ProviderSpec_Raw class = "")
  then Err "empty provider spec"
  else Ok (spec (image (ProviderSpec_Raw class)) [happyDisk] None None).

Definition vm (name : string) : compute.VirtualMachine := {|
  compute.VM_ID := Some ("/virtualMachines/" +:+ name);
  compute.VM_Name := Some name;
  compute.VM_Plan := None;
  compute.VM_Location := Some "westeurope";
  compute.VM_Properties := None;
  compute.VM_Zones := None;
  compute.VM_Identity := None;
  compute.VM_Tags := ∅
|}.

Definition nic (name : string) : network.Interface := {|
  network.Interface_ID := Some ("/networkInterfaces/" +:+ name);
  network.Interface_Name := Some name;
  network.Interface_Location := Some "westeurope";
  network.Interface_Properties := None;
  network.Interface_Tags := ∅
|}.

Definition vmImage (plan : string) : compute.VirtualMachineImage := {|
  compute.Image_Properties := Some {|
    compute.Image_Plan :=
      if bool_decide (plan = "") then None
      else Some {| compute.PurchasePlan_Publisher := Some plan;
                   compute.PurchasePlan_Name := Some plan;
                   compute.PurchasePlan_Product := Some plan |}
  |}
|}.

Definition agreement (accepted : string) : marketplaceordering.AgreementTerms := {|
  marketplaceordering.Agreement_Properties := Some {|
    marketplaceordering.Accepted :=
      if bool_decide (accepted = "") then None else Some true
  |}
|}.

Definition env : Env string World unit string string := {|
  Error := id;
  fmt_Errorf := id;
  strings_ToLower := ToLower;
  decodeProviderSpecAndSecret := decode;
  Setup := fun _ => reply (fun _ => tt);
  GetSubnet_Get := fun _ _ _ subnetName _ =>
    reply (fun _ => {| network.Subnet_ID := Some ("/subnets/" +:+ subnetName);
                       network.Subnet_Name := Some subnetName |});
  GetNic_CreateOrUpdate := fun _ _ name _ => reply (fun _ => name);
  NICFuture_wait := fun _ _ => reply_err;
  GetNic_is_InterfacesClient := fun _ => true;
  NICFuture_result := fun name _ => reply (fun _ => nic name);
  GetImages_Get := fun _ _ _ _ _ _ => reply vmImage;
  GetMarketplace_Get := fun _ _ _ _ => reply agreement;
  GetMarketplace_Create := fun _ _ _ _ terms => reply (fun _ => terms);
  GetVM_CreateOrUpdate := fun _ _ name _ => reply (fun _ => name);
  VMFuture_wait := fun _ _ => reply_err;
  GetVM_is_VirtualMachinesClient := fun _ => true;
  VMFuture_result := fun name _ => reply (fun _ => vm name);
  GetVM_Get := fun _ _ name _ => reply (fun _ => vm name);
  NotFound := fun err => bool_decide (err = "not found");
  OnARMAPIErrorFail := fun _ err _ => err;
  WaitForDataDiskDetachment := fun _ _ _ => reply_err;
  DeleteVM := fun _ _ _ => reply_err;
  FetchAttachedVMfromNIC := fun _ _ _ => reply id;
  DeleteNIC := fun _ _ _ => reply_err;
  DiskDeleter := fun _ _ _ => reply_err;
  combineErrors := fun errs => foldr (fun err rest => err +:+ "; " +:+ rest) "" errs
|}.

Definition request (name raw : string) : CreateMachineRequest := {|
  Machine_Name := name;
  Request_MachineClass := {| MachineClass_Name := "class"; ProviderSpec_Raw := raw |};
  Request_Secret := {| Data := {[ "userData" := "#cloud-config" ]} |}
|}.

Definition start (w : World) : State (error := string) := {|
  plugin := {| Plugin_AzureProviderSpec := None;
               Plugin_Secret := Some {| Data := {[ "userData" := "#cloud-config" ]} |} |};
  world := w;
  trace := [];
  klog := []
|}.

(** A run in which the submission of the NIC fails and the teardown that
    follows fails as well, and the call that failed first. *)
Definition rollbackScript : World :=
  [Succeed; Succeed; Fail "quota exceeded"; Fail "backend down"].

Definition failedCall : Call :=
  Eval vm_compute in
    match issued (createVMNicDisk env (request "VM-1" "image-id")) (start rollbackScript)
            !! 3%nat with
    | Some (c, _) => c
    | None => SPI_Setup
    end.

(** A plugin whose spec has both a zone and an availability set, and the
    machine definition built from it. *)
Definition zonedSpec : AzureProviderSpec :=
  spec (image "image-id") [happyDisk] (Some 2)
    (Some {| AzureSubResource_ID := "availability-set" |}).

Definition zonedPlugin : MachinePlugin := {|
  Plugin_AzureProviderSpec := Some zonedSpec;
  Plugin_Secret := Some {| Data := {[ "userData" := "#cloud-config" ]} |}
|}.

Definition zonedVM : compute.VirtualMachine :=
  Eval vm_compute in
    match getVMParameters zonedPlugin "vm-1" None "nic-id" with
    | Val parameters => parameters
    | Panic _ => vm ""
    end.

End Fake.

(** ** Further notions, for the properties of the workflows as a whole *)


(** The plan that [getVMParameters] attaches for a given image. *)
Definition planOf (image : option compute.VirtualMachineImage)
    : outcome (option compute.Plan) :=
  match image with
  | Some image =>
      imageProperties ← deref (compute.Image_Properties image);
      mret ((λ imagePlan, {|
              compute.Plan_Name := compute.PurchasePlan_Name imagePlan;
              compute.Plan_Product := compute.PurchasePlan_Product imagePlan;
              compute.Plan_Publisher := compute.PurchasePlan_Publisher imagePlan
            |}) <$> compute.Image_Plan imageProperties)
  | None => mret None
  end.

(** The machine definition that [getVMParameters] arrives at, after all
    its assignments, written as one value. *)
Definition vmParametersOf (spec : AzureProviderSpec) (secret : Secret) (vmName : string)
    (imageReference : compute.ImageReference) (plan : option compute.Plan)
    (networkInterfaceReferenceID : string) : compute.VirtualMachine :=
  let properties := Properties spec in
  {| compute.VM_ID := None;
     compute.VM_Name := Some vmName;
     compute.VM_Plan := plan;
     compute.VM_Location := Some (Location spec);
     compute.VM_Properties := Some {|
       compute.HardwareProfile_VMSize := HardwareProfile_VMSize properties;
       compute.VM_StorageProfile := Some {|
         compute.StorageProfile_ImageReference := Some imageReference;
         compute.StorageProfile_OsDisk := Some {|
           compute.OSDisk_Name := Some (dependencyNameFromVMName vmName diskSuffix);
           compute.OSDisk_Caching := AzureOSDisk_Caching (OsDisk (StorageProfile properties));
           compute.OSDisk_ManagedDisk := Some {|
             compute.StorageAccountType :=
               AzureOSDisk_StorageAccountType (OsDisk (StorageProfile properties))
           |};
           compute.OSDisk_DiskSizeGB :=
             Some (AzureOSDisk_DiskSizeGB (OsDisk (StorageProfile properties)));
           compute.OSDisk_CreateOption :=
             AzureOSDisk_CreateOption (OsDisk (StorageProfile properties))
         |};
         compute.StorageProfile_DataDisks :=
           match DataDisks (StorageProfile properties) with
           | [] => None
           | dataDisks => Some (imap (dataDiskAt vmName) dataDisks)
           end
       |};
       compute.VM_OsProfile := Some {|
         compute.ComputerName := Some vmName;
         compute.OSProfile_AdminUsername := Some (AdminUsername (OsProfile properties));
         compute.CustomData :=
           Some (base64_EncodeToString (default "" (Data secret !! "userData")));
         compute.OSProfile_LinuxConfiguration := Some {|
           compute.LinuxConfiguration_DisablePasswordAuthentication :=
             Some (DisablePasswordAuthentication (OsProfile properties));
           compute.LinuxConfiguration_SSH_PublicKeys := Some [ {|
             compute.SSHPublicKey_Path := Some (SSH_PublicKeys_Path (OsProfile properties));
             compute.SSHPublicKey_KeyData :=
               Some (SSH_PublicKeys_KeyData (OsProfile properties))
           |} ]
         |}
       |};
       compute.NetworkProfile_NetworkInterfaces := Some [ {|
         compute.NetworkInterfaceReference_ID := Some networkInterfaceReferenceID;
         compute.Primary := Some true
       |} ];
       compute.VM_AvailabilitySet :=
         match Zone properties with
         | Some _ => None
         | None =>
             (λ availabilitySet,
                {| compute.SubResource_ID := Some (AzureSubResource_ID availabilitySet) |})
             <$> AvailabilitySet properties
         end
     |};
     compute.VM_Zones := (λ zone, [fmt_d zone]) <$> Zone properties;
     compute.VM_Identity :=
       match IdentityID properties with
       | Some identityID =>
           if bool_decide (identityID ≠ "")
           then Some {| compute.Identity_Type := compute.ResourceIdentityTypeUserAssigned;
                        compute.UserAssignedIdentities := {[ identityID ]} |}
           else None
       | None => None
       end;
     compute.VM_Tags := tagList (Tags spec) |}.

(** The place of a call in the creation workflow: the session, the subnet,
    and then the steps in the order in which [createVMNicDisk] is written.
    The calls of a teardown and the reports to the metrics have none. *)
Definition step_index (st : step) : nat :=
  match st with
  | NicSubmit => 0 | NicAwait => 1 | NicFetch => 2
  | ImageFetch => 3 | AgreementFetch => 4 | AgreementAccept => 5
  | VMSubmit => 6 | VMAwait => 7 | VMFetch => 8
  end.

Definition position (c : Call) : option nat :=
  match c with
  | SPI_Setup => Some 0%nat
  | Subnet_Get _ _ _ _ => Some 1%nat
  | _ => (λ st, 2 + step_index st)%nat <$> creation_step c
  end.

(** The calls that look at, or delete, a resource in a teardown, and among
    them those on the NIC and the disks. *)
Definition is_teardown_op (c : Call) : bool :=
  match c with
  | VM_Get _ _ _ | spi_WaitForDataDiskDetachment _ _ | spi_DeleteVM _ _
  | spi_FetchAttachedVMfromNIC _ _ | spi_DeleteNIC _ _ | spi_DiskDeleter _ _ => true
  | _ => false
  end.

Definition is_dependent_op (c : Call) : bool :=
  match c with
  | spi_FetchAttachedVMfromNIC _ _ | spi_DeleteNIC _ _ | spi_DiskDeleter _ _ => true
  | _ => false
  end.

(** A list of events that reads as one pass through the workflow: the
    calls of the workflow come in increasing position and without error,
    no teardown is among them, and the first call that fails is a call of
    the workflow and ends it; after it come only calls without a place in
    the workflow, and no call of a teardown when the session or the subnet
    was what failed. *)
Fixpoint in_order {error : Type} (next : nat) (evs : list (Call * option error)) : Prop :=
  match evs with
  | [] => True
  | (c, err) :: rest =>
      match position c, err with
      | Some p, None => (next ≤ p)%nat ∧ in_order (S p) rest
      | Some p, Some _ =>
          (next ≤ p)%nat ∧
          Forall (λ ev, position ev.1 = None ∧
                        ((p < 2)%nat → is_teardown_op ev.1 = false)) rest
      | None, None => is_teardown_op c = false ∧ in_order next rest
      | None, Some _ => False
      end
  end.

(** A call of the workflow that came back with an error, and a given step
    that came back without one. *)
Definition failed_call {error : Type} (ev : Call * option error) : bool :=
  match position ev.1, ev.2 with
  | Some _, Some _ => true
  | _, _ => false
  end.

Global Instance step_eq_dec : EqDecision step.
Proof. solve_decision. Defined.

Definition succeeded {error : Type} (st : step) (ev : Call * option error) : bool :=
  match creation_step ev.1, ev.2 with
  | Some st', None => bool_decide (st' = st)
  | _, _ => false
  end.

(** The steps that every creation goes through. *)
Definition mandatory_steps : list step :=
  [NicSubmit; NicAwait; NicFetch; VMSubmit; VMAwait; VMFetch].

(** The agreement that [createVMNicDisk] submits to accept the terms of a plan. *)
Definition acceptedAgreement : marketplaceordering.AgreementTerms :=
  {| marketplaceordering.Agreement_Properties :=
       Some {| marketplaceordering.Accepted := Some true |} |}.

(** ** The fake driver of package [mock] *)

Module mock.

Record CreateMachineResponse : Type := {
  ProviderID : string;
  NodeName : string
}.

Section Driver.

Context {error : Type}.

(** The decoder of package [mock], the method [Error] of the error values
    and [status.Error(codes.Internal, _)], as they come. *)
Variable decodeProviderSpecAndSecret :
  MachineClass → Secret → result error AzureProviderSpec.
Variable Error : error → string.
Variable status_Internal : string → error.

Definition CreateMachine (req : CreateMachineRequest)
    : result error CreateMachineResponse :=
  match decodeProviderSpecAndSecret (Request_MachineClass req) (Request_Secret req) with
  | Err err => Err (status_Internal (Error err))
  | Ok providerSpec =>
      let providerID :=
        "azure:///" +:+ Location providerSpec +:+ "/" +:+ Machine_Name req in
      Ok {| ProviderID := providerID; NodeName := Machine_Name req |}
  end.

End Driver.

End mock.

(** ** Sample inputs *)

Module Sample.

(** A spec with a user-assigned identity and one data disk, and the
    machine definition built from it for an image that has a plan. *)
Definition identifiedSpec : AzureProviderSpec :=
  let spec := Fake.spec (Fake.image "image-id") [Fake.happyDisk] None None in
  {| Location := Location spec;
     Tags := Tags spec;
     Properties := {|
       HardwareProfile_VMSize := HardwareProfile_VMSize (Properties spec);
       StorageProfile := StorageProfile (Properties spec);
       OsProfile := OsProfile (Properties spec);
       NetworkProfile_AcceleratedNetworking := None;
       AvailabilitySet := None;
       IdentityID := Some "identity-1";
       Zone := None
     |};
     ResourceGroup := ResourceGroup spec;
     SubnetInfo := SubnetInfo spec |}.

Definition identifiedPlugin : MachinePlugin :=
  {| Plugin_AzureProviderSpec := Some identifiedSpec;
     Plugin_Secret := Some {| Data := {[ "userData" := "#cloud-config" ]} |} |}.

Definition identifiedVM : compute.VirtualMachine :=
  Eval vm_compute in
    match getVMParameters identifiedPlugin "vm-1" (Some (Fake.vmImage "plan-a")) "nic-id" with
    | Val vm => vm
    | Panic _ => Fake.vm "vm-1"
    end.

(** A run of the creation workflow in which the image has a plan whose
    terms are not yet accepted. *)
Definition planScript : Fake.World :=
  [Fake.Succeed; Fake.Succeed; Fake.Succeed; Fake.Succeed; Fake.Succeed;
   Fake.SucceedWith "plan-a"].

(** The interface and the machine definition that this run submits. *)
Definition submittedNIC : network.Interface :=
  Eval vm_compute in
    match issued (createVMNicDisk Fake.env (Fake.request "VM-1" "p:o:s:v"))
            (Fake.start planScript) !! 3%nat with
    | Some (Nic_CreateOrUpdate _ _ parameters, _) => parameters
    | _ => Fake.nic ""
    end.

Definition submittedVM : compute.VirtualMachine :=
  Eval vm_compute in
    match issued (createVMNicDisk Fake.env (Fake.request "VM-1" "p:o:s:v"))
            (Fake.start planScript) !! 10%nat with
    | Some (VM_CreateOrUpdate _ _ parameters, _) => parameters
    | _ => Fake.vm ""
    end.

End Sample.

(** * Properties *)

(** ** Go primitives *)

Lemma int32_small z : -2 ^ 31 ≤ z < 2 ^ 31 → int32 z = z.
Proof. intros Hz. unfold int32. rewrite Z.mod_small; lia. Qed.

Lemma split_acc_length sep s piece :
  length (split_acc sep s piece) = S (count_byte sep s).
Proof.
  revert piece. induction s as [|c s IH]; intros piece; simpl; [done|].
  destruct (Ascii.eqb c sep); simpl; by rewrite IH.
Qed.

Lemma strings_Split_length s sep :
  length (strings_Split s sep) = S (count_byte sep s).
Proof. apply split_acc_length. Qed.

Lemma index_lt {A : Type} (l : list A) i :
  (i < length l)%nat → ∃ a, index l i = Val a.
Proof.
  intros Hi. destruct (lookup_lt_is_Some_2 l i Hi) as [a Ha].
  exists a. unfold index. by rewrite Ha.
Qed.

Lemma index_ge {A : Type} (l : list A) i :
  (length l ≤ i)%nat → index l i = Panic (IndexOutOfRange i (length l)).
Proof. intros Hi. unfold index. by rewrite lookup_ge_None_2. Qed.

Example strings_Split_urn :
  strings_Split "Canonical:UbuntuServer:18.04-LTS:latest" ":" =
  ["Canonical"; "UbuntuServer"; "18.04-LTS"; "latest"].
Proof. reflexivity. Qed.

Example strings_Split_no_separator : strings_Split "" ":" = [""].
Proof. reflexivity. Qed.

Example int32_wraps : int32 (2 ^ 31) = - 2 ^ 31.
Proof. reflexivity. Qed.

Example fmt_d_negative : fmt_d (-12) = "-12".
Proof. reflexivity. Qed.

Example base64_padding : base64_EncodeToString "Ma" = "TWE=".
Proof. reflexivity. Qed.

(** ** Naming and data disks *)

Lemma getAzureDataDiskPrefix_Some name l :
  getAzureDataDiskPrefix name (Some l) =
  Val (if bool_decide (name ≠ "") then name +:+ "-" +:+ fmt_d l else fmt_d l).
Proof. unfold getAzureDataDiskPrefix. by case_bool_decide. Qed.

Lemma getAzureDataDiskPrefix_None name :
  getAzureDataDiskPrefix name None = Panic NilDereference.
Proof. unfold getAzureDataDiskPrefix. by case_bool_decide. Qed.

Lemma lunOrPosition_Some d i :
  lunOrPosition (AzureDataDisk_Lun d) i = Some (dataDiskLunAt i d).
Proof. unfold dataDiskLunAt. by destruct (AzureDataDisk_Lun d). Qed.

Lemma generateDataDisks_loop_eq vmName rest : ∀ i acc,
  generateDataDisks_loop vmName i rest acc =
  Val (acc ++ imap (λ j, dataDiskAt vmName (i + j)%nat) rest).
Proof.
  induction rest as [|d rest IH]; intros i acc; simpl.
  - by rewrite app_nil_r.
  - rewrite lunOrPosition_Some, getAzureDataDiskPrefix_Some. simpl.
    rewrite IH, <- app_assoc. simpl. do 3 f_equal.
    + unfold dataDiskAt, dataDiskNameAt. by rewrite Nat.add_0_r.
    + apply imap_ext. intros j x _. simpl. f_equal. lia.
Qed.

Lemma generateDataDisks_eq vmName disks :
  generateDataDisks vmName disks = Val (imap (dataDiskAt vmName) disks).
Proof. unfold generateDataDisks. by rewrite generateDataDisks_loop_eq. Qed.

Lemma getAzureDataDiskNames_loop_eq vmname suffix rest : ∀ i names,
  getAzureDataDiskNames_loop vmname suffix i rest names =
  Val (list_inserts i (imap (λ j, dataDiskNameAt vmname suffix (i + j)%nat) rest) names).
Proof.
  induction rest as [|d rest IH]; intros i names; simpl; [done|].
  rewrite lunOrPosition_Some, getAzureDataDiskPrefix_Some. simpl.
  rewrite IH. f_equal. rewrite list_insert_inserts_lt by lia.
  rewrite Nat.add_0_r. fold (dataDiskNameAt vmname suffix i d).
  rewrite (imap_ext (λ j, dataDiskNameAt vmname suffix (S i + j)%nat)
             ((λ j, dataDiskNameAt vmname suffix (i + j)%nat) ∘ S) rest); [done|].
  intros j x _. simpl. f_equal. lia.
Qed.

Lemma getAzureDataDiskNames_eq disks vmname suffix :
  getAzureDataDiskNames disks vmname suffix =
  Val (imap (dataDiskNameAt vmname suffix) disks).
Proof.
  unfold getAzureDataDiskNames. rewrite getAzureDataDiskNames_loop_eq. f_equal.
  rewrite <- (app_nil_r (replicate _ _)), list_inserts_0_r, app_nil_r; [done|].
  by rewrite length_imap, length_replicate.
Qed.

Lemma dataDiskNamesOf_eq vmName spec :
  dataDiskNamesOf vmName spec =
  Val (imap (dataDiskNameAt vmName dataDiskSuffix)
         (DataDisks (StorageProfile (Properties spec)))).
Proof.
  unfold dataDiskNamesOf. case_bool_decide as Hlen.
  - apply getAzureDataDiskNames_eq.
  - destruct (DataDisks _); [done|simpl in Hlen; lia].
Qed.

(** C2, as the code has it: in the happy-path scenario (instance "vm-1",
    one data disk without name and LUN, 50 GiB) the NIC is named
    "vm-1-nic" and the data disk is named "vm-1-0-data-disk", the instance
    name coming first, with LUN 0. *)
Theorem happy_path_names :
  dependencyNameFromVMName "vm-1" nicSuffix = "vm-1-nic" ∧
  getAzureDataDiskNames [Fake.happyDisk] "vm-1" dataDiskSuffix = Val ["vm-1-0-data-disk"] ∧
  ∃ dataDisk,
    generateDataDisks "vm-1" [Fake.happyDisk] = Val [dataDisk] ∧
    compute.DataDisk_Name dataDisk = Some "vm-1-0-data-disk" ∧
    compute.DataDisk_Lun dataDisk = Some 0 ∧
    compute.DataDisk_DiskSizeGB dataDisk = Some 50.
Proof.
  split_and!; [done|by vm_compute|].
  eexists. by vm_compute.
Qed.

(** C2, as the specification words it: the data disk of the happy-path
    scenario is not named "0-vm-1-data-disk". *)
Lemma happy_path_names_counterexample :
  ¬ (dependencyNameFromVMName "vm-1" nicSuffix = "vm-1-nic" ∧
     getAzureDataDiskNames [Fake.happyDisk] "vm-1" dataDiskSuffix =
       Val ["0-vm-1-data-disk"]).
Proof. intros [_ H]. vm_compute in H. discriminate. Qed.

(** C3: the disk built at position [i] has the LUN of its descriptor when
    there is one and the position converted to [int32] otherwise (the
    position itself as long as it fits 31 bits); its caching mode is the
    descriptor's, or "None" when that is empty; size and storage account
    type are the descriptor's; the create option is "Empty".  There are as
    many disks as descriptors, and none for the empty sequence. *)
Theorem generateDataDisks_spec (vmName : string) (disks : list AzureDataDisk)
    (i : nat) (d : AzureDataDisk) :
  disks !! i = Some d →
  generateDataDisks vmName [] = Val [] ∧
  ∃ dataDisks dataDisk,
    generateDataDisks vmName disks = Val dataDisks ∧
    length dataDisks = length disks ∧
    dataDisks !! i = Some dataDisk ∧
    compute.DataDisk_Lun dataDisk =
      Some (match AzureDataDisk_Lun d with
            | Some lun => lun
            | None => int32 (Z.of_nat i)
            end) ∧
    (Z.of_nat i < 2 ^ 31 → int32 (Z.of_nat i) = Z.of_nat i) ∧
    compute.DataDisk_Caching dataDisk =
      (if bool_decide (AzureDataDisk_Caching d = "")
       then "None"
       else AzureDataDisk_Caching d) ∧
    compute.DataDisk_DiskSizeGB dataDisk = Some (AzureDataDisk_DiskSizeGB d) ∧
    compute.DataDisk_ManagedDisk dataDisk =
      Some {| compute.StorageAccountType := AzureDataDisk_StorageAccountType d |} ∧
    compute.DataDisk_CreateOption dataDisk = "Empty".
Proof.
  intros Hi. split; [done|].
  exists (imap (dataDiskAt vmName) disks), (dataDiskAt vmName i d).
  split_and!.
  - apply generateDataDisks_eq.
  - apply length_imap.
  - by rewrite list_lookup_imap, Hi.
  - simpl. unfold dataDiskLunAt. by destruct (AzureDataDisk_Lun d).
  - intros Hlt. apply int32_small. lia.
  - simpl. repeat case_bool_decide; done.
  - done.
  - done.
  - done.
Qed.

Lemma generateDataDisks_spec_witness :
  [Fake.happyDisk; Fake.happyDisk] !! 1%nat = Some Fake.happyDisk ∧
  generateDataDisks "vm-1" [] = Val [] ∧
  ∃ dataDisks dataDisk,
    generateDataDisks "vm-1" [Fake.happyDisk; Fake.happyDisk] = Val dataDisks ∧
    length dataDisks = 2%nat ∧
    dataDisks !! 1%nat = Some dataDisk ∧
    compute.DataDisk_Lun dataDisk = Some (int32 1) ∧
    (1 < 2 ^ 31 → int32 1 = 1) ∧
    compute.DataDisk_Caching dataDisk = "None" ∧
    compute.DataDisk_DiskSizeGB dataDisk = Some 50 ∧
    compute.DataDisk_ManagedDisk dataDisk = Some {| compute.StorageAccountType := "" |} ∧
    compute.DataDisk_CreateOption dataDisk = "Empty".
Proof.
  split; [reflexivity|].
  apply (generateDataDisks_spec "vm-1" [Fake.happyDisk; Fake.happyDisk] 1 Fake.happyDisk).
  reflexivity.
Defined.

(** C8, as the code has it: the two concatenating helpers return a string
    for every input; the prefix function returns one for every name and
    every LUN that is present, and panics on a nil LUN; both loops over
    the data disks give it a LUN, the position when the descriptor has
    none, so that they return a name for every descriptor.  The helpers
    are functions of their arguments alone. *)
Theorem naming_helpers_total (vmName suffix dependency name : string) (lun : Z)
    (disks : list AzureDataDisk) :
  dependencyNameFromVMName vmName suffix = vmName +:+ suffix ∧
  dependencyNameFromVMNameAndDependency dependency vmName suffix =
    vmName +:+ "-" +:+ dependency +:+ suffix ∧
  getAzureDataDiskPrefix name (Some lun) =
    Val (if bool_decide (name = "") then fmt_d lun else name +:+ "-" +:+ fmt_d lun) ∧
  getAzureDataDiskPrefix name None = Panic NilDereference ∧
  (∃ names, getAzureDataDiskNames disks vmName suffix = Val names ∧
            length names = length disks) ∧
  (∃ dataDisks, generateDataDisks vmName disks = Val dataDisks ∧
                length dataDisks = length disks).
Proof.
  split_and!.
  - done.
  - done.
  - rewrite getAzureDataDiskPrefix_Some. by repeat case_bool_decide.
  - apply getAzureDataDiskPrefix_None.
  - eexists. split; [apply getAzureDataDiskNames_eq|apply length_imap].
  - eexists. split; [apply generateDataDisks_eq|apply length_imap].
Qed.

(** C8, as the specification words it: with a nil LUN the prefix function
    returns no string. *)
Lemma naming_helpers_total_counterexample :
  ¬ ∃ prefix, getAzureDataDiskPrefix "" None = Val prefix.
Proof. intros [prefix H]. vm_compute in H. discriminate. Qed.

(** ** The machine definition *)

Lemma set_DataDisks_zones vm dataDisks vm' :
  set_DataDisks vm dataDisks = Val vm' →
  compute.VM_Zones vm' = compute.VM_Zones vm ∧
  ∃ props props',
    compute.VM_Properties vm = Some props ∧
    compute.VM_Properties vm' = Some props' ∧
    compute.VM_AvailabilitySet props' = compute.VM_AvailabilitySet props.
Proof.
  unfold set_DataDisks. destruct (compute.VM_Properties vm) as [props|] eqn:E; [|done].
  simpl. destruct (compute.VM_StorageProfile props); [|done].
  simpl. intros [= <-]. simpl. split; [done|].
  eexists _, _. split_and!; reflexivity.
Qed.

(** C6: when the spec has a zone, the machine definition carries exactly
    that zone and no availability set, whether or not the spec has an
    availability set; the availability set of the spec is attached when
    the spec has no zone, and only then. *)
Theorem zone_takes_precedence (d : MachinePlugin) (vmName : string)
    (image : option compute.VirtualMachineImage) (networkInterfaceReferenceID : string)
    (spec : AzureProviderSpec) (vm : compute.VirtualMachine) :
  Plugin_AzureProviderSpec d = Some spec →
  getVMParameters d vmName image networkInterfaceReferenceID = Val vm →
  ∃ props,
    compute.VM_Properties vm = Some props ∧
    match Zone (Properties spec) with
    | Some zone =>
        compute.VM_Zones vm = Some [fmt_d zone] ∧
        compute.VM_AvailabilitySet props = None
    | None =>
        compute.VM_Zones vm = None ∧
        compute.VM_AvailabilitySet props =
          (λ availabilitySet,
             {| compute.SubResource_ID := Some (AzureSubResource_ID availabilitySet) |})
          <$> AvailabilitySet (Properties spec)
    end.
Proof.
  intros Hspec Hrun. unfold getVMParameters in Hrun. rewrite Hspec in Hrun.
  destruct (Plugin_Secret d) as [secret|]; [|done]. simpl in Hrun.
  destruct (getImageReference d) as [imageReference|]; [|done]. simpl in Hrun.
  match type of Hrun with context [ mbind _ ?m ] => destruct m as [plan|]; [|done] end.
  simpl in Hrun. rewrite generateDataDisks_eq in Hrun.
  match type of Hrun with context [ mbind _ ?m ] =>
    destruct m as [withDisks|] eqn:Hdisks; [|done] end.
  assert (compute.VM_Zones withDisks = None ∧
          ∃ props, compute.VM_Properties withDisks = Some props ∧
                   compute.VM_AvailabilitySet props = None) as [Hz (props & Hp & Ha)].
  { case_bool_decide.
    - simpl in Hdisks.
      apply set_DataDisks_zones in Hdisks as (Hzones & p0 & p1 & Hp0 & Hp1 & Hset).
      simpl in Hp0. injection Hp0 as <-. simpl in Hset.
      rewrite Hzones. split; [done|]. exists p1. by rewrite Hset.
    - injection Hdisks as <-. simpl. eauto. }
  clear Hdisks. simpl in Hrun.
  destruct (Zone (Properties spec)) as [zone|];
    [|destruct (AvailabilitySet (Properties spec)) as [availabilitySet|]];
    unfold set_AvailabilitySet in Hrun; rewrite ?Hp in Hrun; simpl in Hrun;
    (destruct (IdentityID (Properties spec)) as [identityID|];
      [case_bool_decide|]);
    unfold mret, outcome_ret in Hrun; simplify_eq/=; eauto.
Qed.

Lemma zone_takes_precedence_witness :
  Plugin_AzureProviderSpec Fake.zonedPlugin = Some Fake.zonedSpec ∧
  getVMParameters Fake.zonedPlugin "vm-1" None "nic-id" = Val Fake.zonedVM ∧
  ∃ props,
    compute.VM_Properties Fake.zonedVM = Some props ∧
    compute.VM_Zones Fake.zonedVM = Some ["2"] ∧
    compute.VM_AvailabilitySet props = None.
Proof.
  split; [reflexivity|]. split; [vm_compute; reflexivity|].
  apply (zone_takes_precedence Fake.zonedPlugin "vm-1" None "nic-id" Fake.zonedSpec
           Fake.zonedVM); [reflexivity|vm_compute; reflexivity].
Defined.

(** ** The image reference *)

Section ImageReference.

Variables (d : MachinePlugin) (spec : AzureProviderSpec).
Hypothesis plugin_spec : Plugin_AzureProviderSpec d = Some spec.

Lemma getImageReference_ID :
  AzureImageReference_ID (ImageReference (StorageProfile (Properties spec))) ≠ "" →
  getImageReference d = Val {|
    compute.ImageReference_Publisher := None;
    compute.ImageReference_Offer := None;
    compute.ImageReference_Sku := None;
    compute.ImageReference_Version := None;
    compute.ImageReference_ID := Some (AzureImageReference_ID (ImageReference (StorageProfile (Properties spec))))
  |}.
Proof.
  intros HID. unfold getImageReference. rewrite plugin_spec. simpl.
  by rewrite bool_decide_true.
Qed.

Lemma getImageReference_URN_nil :
  AzureImageReference_ID (ImageReference (StorageProfile (Properties spec))) = "" →
  AzureImageReference_URN (ImageReference (StorageProfile (Properties spec))) = None →
  getImageReference d = Panic NilDereference.
Proof.
  intros HID HURN. unfold getImageReference. rewrite plugin_spec. simpl.
  rewrite HURN, bool_decide_false; [done|]. by intros [].
Qed.

Lemma getImageReference_URN_short urn :
  AzureImageReference_ID (ImageReference (StorageProfile (Properties spec))) = "" →
  AzureImageReference_URN (ImageReference (StorageProfile (Properties spec))) = Some urn →
  (count_byte ":" urn < 3)%nat →
  getImageReference d =
    Panic (IndexOutOfRange (S (count_byte ":" urn)) (S (count_byte ":" urn))).
Proof.
  intros HID HURN Hcount. unfold getImageReference. rewrite plugin_spec. simpl.
  rewrite HURN, bool_decide_false by (by intros []). simpl.
  pose proof (strings_Split_length urn ":") as Hlen.
  destruct (strings_Split urn ":") as [|a [|b [|c [|e l]]]]; simpl in Hlen;
    try lia; by replace (count_byte ":" urn) with (pred (S (count_byte ":" urn)))
      by done; rewrite <- Hlen.
Qed.

Lemma getImageReference_URN_long urn :
  AzureImageReference_ID (ImageReference (StorageProfile (Properties spec))) = "" →
  AzureImageReference_URN (ImageReference (StorageProfile (Properties spec))) = Some urn →
  (3 ≤ count_byte ":" urn)%nat →
  getImageReference d = Val {|
    compute.ImageReference_Publisher := strings_Split urn ":" !! 0%nat;
    compute.ImageReference_Offer := strings_Split urn ":" !! 1%nat;
    compute.ImageReference_Sku := strings_Split urn ":" !! 2%nat;
    compute.ImageReference_Version := strings_Split urn ":" !! 3%nat;
    compute.ImageReference_ID := None
  |}.
Proof.
  intros HID HURN Hcount. unfold getImageReference. rewrite plugin_spec. simpl.
  rewrite HURN, bool_decide_false by (by intros []). simpl.
  pose proof (strings_Split_length urn ":") as Hlen.
  by destruct (strings_Split urn ":") as [|a [|b [|c [|e l]]]]; simpl in Hlen; try lia.
Qed.

End ImageReference.

(** ** Running the workflows *)

Section Runs.

Context {error World Clients NICFuture VMFuture : Type}.
Variable env : Env error World Clients NICFuture VMFuture.

Local Abbreviation State := (@State error World).
Local Abbreviation M := (@M error World).

Lemma bind_run {A B : Type} (m : M A) (f : A → M B) (s : State) :
  (m ≫= f) s =
  match m s with
  | (Val a, s') => f a s'
  | (Panic p, s') => (Panic p, s')
  end.
Proof. reflexivity. Qed.

Lemma issues_ret {A : Type} P (a : A) : issues P (mret a : M A).
Proof. intros s. split_and!; [done..|]. exists []. by rewrite app_nil_r. Qed.

Lemma issues_lift {A : Type} P (o : outcome A) : issues P (lift o : M A).
Proof. intros s. split_and!; [done..|]. exists []. by rewrite app_nil_r. Qed.

Lemma issues_bind {A B : Type} P (m : M A) (f : A → M B) :
  issues P m → (∀ a, issues P (f a)) → issues P (m ≫= f).
Proof.
  intros Hm Hf s. rewrite bind_run.
  destruct (Hm s) as (Hp & Hk & evs & Ht & Hall).
  destruct (m s) as [[a|p] s1]; simpl in *.
  - destruct (Hf a s1) as (Hp' & Hk' & evs' & Ht' & Hall').
    split_and!; [congruence..|]. exists (evs ++ evs').
    split; [|by apply Forall_app]. rewrite Ht', Ht. by rewrite app_assoc.
  - split_and!; [done..|]. by exists evs.
Qed.

Lemma issues_call {A : Type} (P : Call → Prop) c (op : World → result error A * World) :
  P c → issues P (call c op).
Proof.
  intros Hc s. unfold call. destruct (op (world s)) as [r w]. simpl.
  split_and!; [done..|]. eexists [_]. split; [done|]. by constructor.
Qed.

Lemma issues_call_err (P : Call → Prop) c (op : World → option error * World) :
  P c → issues P (call_err c op).
Proof.
  intros Hc s. unfold call_err. destruct (op (world s)) as [r w]. simpl.
  split_and!; [done..|]. eexists [_]. split; [done|]. by constructor.
Qed.

Lemma issues_onARMAPISuccess (P : Call → Prop) service message :
  P (spi_OnARMAPISuccess service message) →
  issues P (onARMAPISuccess service message : M unit).
Proof.
  intros Hc s. simpl. split_and!; [done..|]. eexists [_]. split; [done|]. by constructor.
Qed.

Lemma issues_onARMAPIErrorFail (P : Call → Prop) service err message :
  P (spi_OnARMAPIErrorFail service message) →
  issues P (onARMAPIErrorFail env service err message).
Proof.
  intros Hc s. simpl. split_and!; [done..|]. eexists [_]. split; [done|]. by constructor.
Qed.

Lemma issues_runAll P (ds : list (M (option error))) :
  Forall (issues P) ds → issues P (runAll ds).
Proof.
  induction 1 as [|m ds Hm _ IH]; simpl; [apply issues_ret|].
  apply issues_bind; [done|]. intros err.
  apply issues_bind; [done|]. intros errs. apply issues_ret.
Qed.

Lemma issues_RunInParallel P (ds : list (M (option error))) :
  Forall (issues P) ds → issues P (RunInParallel env ds).
Proof.
  intros Hds. apply issues_bind; [by apply issues_runAll|]. intros errs. apply issues_ret.
Qed.

Lemma issues_mono {A : Type} (P P' : Call → Prop) (m : M A) :
  (∀ c, P c → P' c) → issues P m → issues P' m.
Proof.
  intros HP Hm s. destruct (Hm s) as (Hp & Hk & evs & Ht & Hall).
  split_and!; [done..|]. exists evs. split; [done|].
  eapply Forall_impl; [done|]. intros ev. apply HP.
Qed.

Ltac issues_steps :=
  repeat match goal with
    | |- issues _ (mbind _ _) => apply issues_bind; [|intros ?]
    | |- issues _ (match ?x with _ => _ end) => destruct x
    | |- issues _ (if ?b then _ else _) => destruct b
    | |- issues _ (mret _) => apply issues_ret
    | |- issues _ (lift _) => apply issues_lift
    | |- issues _ (call _ _) => apply issues_call; simpl; auto
    | |- issues _ (call_err _ _) => apply issues_call_err; simpl; auto
    | |- issues _ (onARMAPISuccess _ _) => by apply issues_onARMAPISuccess
    | |- issues _ (onARMAPIErrorFail _ _ _ _) => by apply issues_onARMAPIErrorFail
    end.

Section TeardownCalls.

Variables (clients : Clients) (resourceGroupName VMName nicName diskName : string).
Variable dataDiskNames : list string.

Local Abbreviation mine :=
  (teardown_calls resourceGroupName VMName nicName diskName dataDiskNames).

Lemma issues_nicDeleter : issues mine (nicDeleter env clients resourceGroupName nicName).
Proof. unfold nicDeleter. issues_steps. Qed.

Lemma issues_diskDeleter name :
  name = diskName ∨ name ∈ dataDiskNames →
  issues mine (diskDeleter env clients resourceGroupName name).
Proof. intros Hname. unfold diskDeleter. issues_steps. Qed.

Lemma issues_dataDiskDeleters names :
  names ⊆ dataDiskNames →
  Forall (issues mine) (map (diskDeleter env clients resourceGroupName) names).
Proof.
  induction names as [|name names IH]; intros Hsub; simpl; [constructor|].
  apply List.Forall_cons.
  - apply issues_diskDeleter. right. apply Hsub. by left.
  - apply IH. intros x Hx. apply Hsub. by right.
Qed.

(** Teardown touches the machine, the NIC and the disks it was given, and
    nothing else. *)
Lemma issues_deleteVMNicDisks :
  issues mine (deleteVMNicDisks env clients resourceGroupName VMName nicName diskName
                 dataDiskNames).
Proof.
  unfold deleteVMNicDisks, deleteVM_first. issues_steps.
  apply issues_RunInParallel. unfold deleters. simpl.
  apply List.Forall_cons; [apply issues_nicDeleter|].
  apply List.Forall_cons; [apply issues_diskDeleter; by left|].
  by apply issues_dataDiskDeleters.
Qed.

End TeardownCalls.

End Runs.

(** ** Teardown *)

Section Teardown.

Context {error World Clients NICFuture VMFuture : Type}.
Variable env : Env error World Clients NICFuture VMFuture.
Variables (clients : Clients) (resourceGroupName VMName nicName diskName : string).
Variable dataDiskNames : list string.

Local Abbreviation State := (@State error World).

(** What the NIC branch does, by the answer of the attachment lookup. *)
Lemma nicDeleter_run (s : State) :
  nicDeleter env clients resourceGroupName nicName s =
  match FetchAttachedVMfromNIC env clients resourceGroupName nicName (world s) with
  | (Err err, w) =>
      (Val (if NotFound env err then None else Some err),
       record s w (spi_FetchAttachedVMfromNIC resourceGroupName nicName) (Some err))
  | (Ok vmHoldingNic, w) =>
      let s1 := record s w (spi_FetchAttachedVMfromNIC resourceGroupName nicName) None in
      if bool_decide (vmHoldingNic ≠ "")
      then (Val (Some (fmt_Errorf env
              ("Cannot delete NIC " +:+ nicName +:+
               " because it is attached to VM " +:+ vmHoldingNic))), s1)
      else
        let '(err, w') := DeleteNIC env clients resourceGroupName nicName w in
        (Val err, record s1 w' (spi_DeleteNIC resourceGroupName nicName) err)
  end.
Proof.
  unfold nicDeleter. rewrite bind_run. unfold call.
  destruct (FetchAttachedVMfromNIC _ _ _ _ _) as [[holder|err] w]; simpl.
  - by case_bool_decide.
  - by destruct (NotFound env err).
Qed.

(** C4: when the NIC is found attached to a machine (to any machine, so
    also to one other than the machine being torn down), the NIC branch
    returns the conflict error and has issued the lookup only, not the
    deletion of the NIC; whenever the branch does issue the deletion, the
    lookup had answered that the NIC is attached to no machine. *)
Theorem nic_attached_is_conflict (s : State) (vmHoldingNic : string) (w : World) :
  FetchAttachedVMfromNIC env clients resourceGroupName nicName (world s)
    = (Ok vmHoldingNic, w) →
  vmHoldingNic ≠ "" →
  vmHoldingNic ≠ VMName →
  nicDeleter env clients resourceGroupName nicName s =
    (Val (Some (fmt_Errorf env
       ("Cannot delete NIC " +:+ nicName +:+
        " because it is attached to VM " +:+ vmHoldingNic))),
     record s w (spi_FetchAttachedVMfromNIC resourceGroupName nicName) None) ∧
  (∀ ev, ev ∈ trace (nicDeleter env clients resourceGroupName nicName s).2 →
         is_DeleteNIC ev.1 = true → ev ∈ trace s) ∧
  (∀ (s0 : State) ev,
     ev ∈ trace (nicDeleter env clients resourceGroupName nicName s0).2 →
     is_DeleteNIC ev.1 = true →
     ev ∈ trace s0 ∨
     ∃ w0, FetchAttachedVMfromNIC env clients resourceGroupName nicName (world s0)
             = (Ok "", w0)).
Proof.
  intros Hfetch Hattached _. split_and!.
  - rewrite nicDeleter_run, Hfetch. simpl. by rewrite bool_decide_true.
  - rewrite nicDeleter_run, Hfetch. simpl. rewrite bool_decide_true by done. simpl.
    intros ev [Hev| ->%list_elem_of_singleton]%elem_of_app; [done|]. done.
  - intros s0 ev. rewrite nicDeleter_run.
    destruct (FetchAttachedVMfromNIC _ _ _ _ (world s0)) as [[holder|err] w0]; simpl.
    + case_bool_decide as Hholder; simpl.
      * intros [Hev| ->%list_elem_of_singleton]%elem_of_app; [by left|done].
      * destruct (DeleteNIC _ _ _ _ _) as [err w1]. simpl. intros _ _. right.
        exists w0. f_equal. f_equal. destruct (decide (holder = "")); [done|].
        by destruct Hholder.
    + intros [Hev| ->%list_elem_of_singleton]%elem_of_app; [by left|done].
Qed.

(** C5: when the fetch of the machine answers not-found, teardown does
    nothing about the machine and goes on with the deleters; any other
    error of the fetch ends teardown at once and is returned, through the
    error reporter; and the NIC branch returns no error, having issued the
    lookup only, when the lookup answers not-found. *)
Theorem teardown_tolerates_absence (s : State) (vmErr : error) (w : World) :
  GetVM_Get env clients resourceGroupName VMName "" (world s) = (Err vmErr, w) →
  let s1 := record s w (VM_Get resourceGroupName VMName "") (Some vmErr) in
  deleteVMNicDisks env clients resourceGroupName VMName nicName diskName dataDiskNames s =
    (if NotFound env vmErr
     then RunInParallel env
            (deleters env clients resourceGroupName nicName diskName dataDiskNames) s1
     else (Val (Some (OnARMAPIErrorFail env prometheusServiceVM vmErr "vm.Get")),
           record s1 w (spi_OnARMAPIErrorFail prometheusServiceVM "vm.Get") None)) ∧
  (∀ (s0 : State) err w0,
     FetchAttachedVMfromNIC env clients resourceGroupName nicName (world s0)
       = (Err err, w0) →
     NotFound env err = true →
     nicDeleter env clients resourceGroupName nicName s0 =
       (Val None,
        record s0 w0 (spi_FetchAttachedVMfromNIC resourceGroupName nicName) (Some err))).
Proof.
  intros Hget s1. split.
  - unfold deleteVMNicDisks, deleteVM_first. rewrite !bind_run. unfold call.
    rewrite Hget. simpl. fold s1. by destruct (NotFound env vmErr).
  - intros s0 err w0 Hfetch Hnf. by rewrite nicDeleter_run, Hfetch, Hnf.
Qed.

(** *** The order of a teardown *)

Lemma deleters_trace (s : State) :
  ∃ evs,
    trace (RunInParallel env
             (deleters env clients resourceGroupName nicName diskName dataDiskNames) s).2
    = trace s ++ evs.
Proof.
  assert (Hall : Forall (issues (teardown_calls resourceGroupName VMName nicName diskName
                                   dataDiskNames))
                   (deleters env clients resourceGroupName nicName diskName dataDiskNames)).
  { unfold deleters. simpl.
    apply List.Forall_cons; [apply issues_nicDeleter|].
    apply List.Forall_cons; [apply issues_diskDeleter; by left|].
    by apply issues_dataDiskDeleters. }
  destruct (issues_RunInParallel env _ _ Hall s) as (_ & _ & evs & Htrace & _).
  by exists evs.
Qed.

(** X7: when the fetch of the machine succeeds, teardown waits for the
    data disks to detach, whose outcome it ignores, and deletes the
    machine.  An error of the deletion ends teardown at once and is
    returned as it is, with no deleter run, so that the NIC and the disks
    stay.  After a deletion without error teardown reports success with
    the name of the fetched machine and goes on with the deleters; a
    fetched machine without a name makes it panic there, after the
    machine has been deleted and before any deleter has run. *)
Theorem machine_found_teardown (s : State) (vm : compute.VirtualMachine)
    (waitErr deleteErr : option error) (w1 w2 w3 : World) :
  GetVM_Get env clients resourceGroupName VMName "" (world s) = (Ok vm, w1) →
  WaitForDataDiskDetachment env clients resourceGroupName vm w1 = (waitErr, w2) →
  DeleteVM env clients resourceGroupName VMName w2 = (deleteErr, w3) →
  let s3 :=
    record
      (record (record s w1 (VM_Get resourceGroupName VMName "") None) w2
         (spi_WaitForDataDiskDetachment resourceGroupName vm) waitErr)
      w3 (spi_DeleteVM resourceGroupName VMName) deleteErr in
  deleteVMNicDisks env clients resourceGroupName VMName nicName diskName dataDiskNames s =
    match deleteErr, compute.VM_Name vm with
    | Some err, _ => (Val (Some err), s3)
    | None, None => (Panic NilDereference, s3)
    | None, Some name =>
        RunInParallel env
          (deleters env clients resourceGroupName nicName diskName dataDiskNames)
          (record s3 w3
             (spi_OnARMAPISuccess prometheusServiceVM
                ("VM Get was successful for " +:+ name)) None)
    end.
Proof.
  intros Hget Hwait Hdelete s3.
  unfold deleteVMNicDisks, deleteVM_first. rewrite !bind_run. unfold call.
  rewrite Hget. simpl. rewrite !bind_run. unfold call_err. simpl.
  rewrite Hwait. simpl. rewrite !bind_run. simpl. rewrite Hdelete. simpl.
  destruct deleteErr as [err|]; [done|].
  rewrite !bind_run. by destruct (compute.VM_Name vm).
Qed.

(** X8: a teardown calls the backend about the machine, the NIC and the
    disks it was given, in the resource group it was given, and about
    nothing else; it only adds to the calls made so far, and it leaves
    the plugin object and the log as they are. *)
Theorem teardown_touches_only_its_resources (s : State) :
  Forall (λ ev : Call * option error,
            teardown_calls resourceGroupName VMName nicName diskName dataDiskNames ev.1)
    (issued (deleteVMNicDisks env clients resourceGroupName VMName nicName diskName
               dataDiskNames) s) ∧
  trace s `prefix_of`
    trace (deleteVMNicDisks env clients resourceGroupName VMName nicName diskName
             dataDiskNames s).2 ∧
  plugin (deleteVMNicDisks env clients resourceGroupName VMName nicName diskName
            dataDiskNames s).2 = plugin s ∧
  klog (deleteVMNicDisks env clients resourceGroupName VMName nicName diskName
          dataDiskNames s).2 = klog s.
Proof.
  destruct (issues_deleteVMNicDisks env clients resourceGroupName VMName nicName diskName
              dataDiskNames s) as (Hplugin & Hklog & evs & Htrace & Hevs).
  unfold issued. rewrite Htrace, drop_app_length.
  split_and!; [done|by eexists|done..].
Qed.

Lemma deleteVMNicDisks_dependents (s : State) :
  ∃ evs,
    trace (deleteVMNicDisks env clients resourceGroupName VMName nicName diskName
             dataDiskNames s).2 = trace s ++ evs ∧
    ∀ ev, ev ∈ evs → is_dependent_op ev.1 = true →
      (spi_DeleteVM resourceGroupName VMName, None) ∈ evs ∨
      ∃ err, (VM_Get resourceGroupName VMName "", Some err) ∈ evs ∧
             NotFound env err = true.
Proof.
  unfold deleteVMNicDisks, deleteVM_first. rewrite ?bind_run. unfold call.
  destruct (GetVM_Get env clients resourceGroupName VMName "" (world s))
    as [[vm|vmErr] w1]; simpl.
  - rewrite ?bind_run. unfold call_err. simpl.
    destruct (WaitForDataDiskDetachment env clients resourceGroupName vm w1)
      as [waitErr w2]; simpl.
    rewrite ?bind_run. simpl.
    destruct (DeleteVM env clients resourceGroupName VMName w2) as [[err|] w3]; simpl.
    + eexists. split; [by rewrite <- !app_assoc|].
      intros ev Hin Hdep. simpl in Hin.
      repeat (apply elem_of_cons in Hin as [->|Hin]; [done|]).
      by apply elem_of_nil in Hin.
    + rewrite ?bind_run. destruct (compute.VM_Name vm) as [name|]; simpl.
      * match goal with |- context [ RunInParallel _ _ ?s4 ] =>
          destruct (deleters_trace s4) as [evs Htrace]; rewrite Htrace end.
        simpl. eexists. split; [by rewrite <- !app_assoc|].
        intros ev _ _. left. simpl.
        do 2 apply list_elem_of_further. apply list_elem_of_here.
      * eexists. split; [by rewrite <- !app_assoc|].
        intros ev Hin Hdep. simpl in Hin.
        repeat (apply elem_of_cons in Hin as [->|Hin]; [done|]).
        by apply elem_of_nil in Hin.
  - destruct (NotFound env vmErr) eqn:Hnf; simpl.
    + match goal with |- context [ RunInParallel _ _ ?s1 ] =>
        destruct (deleters_trace s1) as [evs Htrace]; rewrite Htrace end.
      simpl. eexists. split; [by rewrite <- !app_assoc|].
      intros ev _ _. right. exists vmErr. split; [apply list_elem_of_here|done].
    + rewrite ?bind_run. simpl. eexists. split; [by rewrite <- !app_assoc|].
      intros ev Hin Hdep. simpl in Hin.
      repeat (apply elem_of_cons in Hin as [->|Hin]; [done|]).
      by apply elem_of_nil in Hin.
Qed.

(** X15: a teardown looks at, or deletes, the NIC and the disks only once
    the machine is out of the way: whenever it issues the attachment
    lookup, the deletion of the NIC or the deletion of a disk, it has
    either deleted the machine without error or been told by the fetch
    that the machine is not found. *)
Theorem dependents_after_machine (s : State) (ev : Call * option error) :
  ev ∈ issued (deleteVMNicDisks env clients resourceGroupName VMName nicName diskName
                 dataDiskNames) s →
  is_dependent_op ev.1 = true →
  (spi_DeleteVM resourceGroupName VMName, None)
    ∈ issued (deleteVMNicDisks env clients resourceGroupName VMName nicName diskName
                dataDiskNames) s ∨
  ∃ err,
    (VM_Get resourceGroupName VMName "", Some err)
      ∈ issued (deleteVMNicDisks env clients resourceGroupName VMName nicName diskName
                  dataDiskNames) s ∧
    NotFound env err = true.
Proof.
  destruct (deleteVMNicDisks_dependents s) as (evs & Htrace & Hevs).
  unfold issued. rewrite Htrace, drop_app_length. apply Hevs.
Qed.

End Teardown.

(** ** Creation *)

Lemma getNICParameters_name d vmName subnet parameters :
  getNICParameters d vmName subnet = Val parameters →
  network.Interface_Name parameters = Some (dependencyNameFromVMName vmName nicSuffix).
Proof.
  unfold getNICParameters. destruct (Plugin_AzureProviderSpec d); [|done].
  by intros [= <-].
Qed.

Lemma getVMParameters_name d vmName image networkInterfaceReferenceID parameters :
  getVMParameters d vmName image networkInterfaceReferenceID = Val parameters →
  compute.VM_Name parameters = Some vmName.
Proof.
  intros Hrun. unfold getVMParameters in Hrun.
  destruct (Plugin_Secret d) as [secret|]; [|done]. simpl in Hrun.
  destruct (Plugin_AzureProviderSpec d) as [spec|]; [|done]. simpl in Hrun.
  destruct (getImageReference d) as [imageReference|]; [|done]. simpl in Hrun.
  match type of Hrun with context [ mbind _ ?m ] => destruct m as [plan|]; [|done] end.
  simpl in Hrun. rewrite generateDataDisks_eq in Hrun.
  match type of Hrun with context [ mbind _ ?m ] =>
    destruct m as [withDisks|] eqn:Hdisks; [|done] end.
  assert (compute.VM_Name withDisks = Some vmName) as Hname.
  { case_bool_decide.
    - simpl in Hdisks. unfold set_DataDisks in Hdisks. simpl in Hdisks.
      by injection Hdisks as <-.
    - by injection Hdisks as <-. }
  clear Hdisks. simpl in Hrun.
  destruct (Zone (Properties spec)) as [zone|];
    [|destruct (AvailabilitySet (Properties spec)) as [availabilitySet|]];
    unfold set_AvailabilitySet in Hrun; simpl in Hrun;
    try (destruct (compute.VM_Properties withDisks); [|done]; simpl in Hrun);
    (destruct (IdentityID (Properties spec)) as [identityID|];
      [case_bool_decide|]);
    unfold mret, outcome_ret in Hrun; simplify_eq/=; done.
Qed.

Lemma teardown_calls_no_step resourceGroupName VMName nicName diskName dataDiskNames c :
  teardown_calls resourceGroupName VMName nicName diskName dataDiskNames c →
  creation_step c = None.
Proof. by destruct c. Qed.

Lemma teardown_calls_no_image resourceGroupName VMName nicName diskName dataDiskNames c :
  teardown_calls resourceGroupName VMName nicName diskName dataDiskNames c →
  image_call c = false.
Proof. by destruct c. Qed.

Lemma teardown_calls_names resourceGroupName VMName nicName diskName dataDiskNames c :
  teardown_calls resourceGroupName VMName nicName diskName dataDiskNames c →
  names_resources resourceGroupName VMName nicName diskName dataDiskNames c.
Proof. by destruct c. Qed.

Global Arguments cleanUp : simpl never.
Global Arguments deleteVMNicDisks : simpl never.
Global Arguments getNICParameters : simpl never.
Global Arguments getVMParameters : simpl never.
Global Arguments getImageReference : simpl never.
Global Arguments getAzureDataDiskNames : simpl never.
Global Arguments resolveImage : simpl never.

Section Creation.

Context {error World Clients NICFuture VMFuture : Type}.
Variable env : Env error World Clients NICFuture VMFuture.
Local Abbreviation State := (@State error World).
Local Abbreviation M := (@M error World).

Lemma call_run {A : Type} c (op : World → result error A * World) (s : State) :
  call c op s =
  (Val (op (world s)).1, record s (op (world s)).2 c (result_err (op (world s)).1)).
Proof. unfold call. by destruct (op (world s)). Qed.

Lemma call_err_run c (op : World → option error * World) (s : State) :
  call_err c op s = (Val (op (world s)).1, record s (op (world s)).2 c (op (world s)).1).
Proof. unfold call_err. by destruct (op (world s)). Qed.

Lemma cleanUp_run clients resourceGroupName vmName nicName diskName dataDiskNames
    (s : State) :
  cleanUp env clients resourceGroupName vmName nicName diskName dataDiskNames s =
  match deleteVMNicDisks env clients resourceGroupName vmName nicName diskName
          dataDiskNames s with
  | (Val (Some err), s') =>
      (Val tt, {| plugin := plugin s'; world := world s'; trace := trace s';
                  klog := klog s' ++
                    ["Error occurred during resource clean up: " +:+ Error env err] |})
  | (Val None, s') => (Val tt, s')
  | (Panic p, s') => (Panic p, s')
  end.
Proof.
  unfold cleanUp. rewrite bind_run.
  by destruct (deleteVMNicDisks _ _ _ _ _ _ _ _) as [[[err|]|p] s'].
Qed.

(** Symbolic execution of a workflow.  The goal is a postcondition [Q]
    applied to a run; [head_scrutinee] finds the computation that the
    run is waiting for, and [exec_step] performs it: a bind is unfolded, a
    call to the backend is split into its success and its failure, a
    teardown into its three outcomes together with what it may have
    issued, and a pure computation that may panic into its two cases. *)
Ltac head_scrutinee t :=
  lazymatch t with
  | match ?x with pair _ _ => _ end => head_scrutinee x
  | match ?x with Val _ => _ | Panic _ => _ end => head_scrutinee x
  | match ?x with Ok _ => _ | Err _ => _ end => head_scrutinee x
  | match ?x with Some _ => _ | None => _ end => head_scrutinee x
  | if ?b then _ else _ => head_scrutinee b
  | (match ?x with Val _ => _ | Panic _ => _ end) _ => head_scrutinee x
  | (match ?x with Ok _ => _ | Err _ => _ end) _ => head_scrutinee x
  | (match ?x with Some _ => _ | None => _ end) _ => head_scrutinee x
  | (if ?b then _ else _) _ => head_scrutinee b
  | _ => t
  end.

Ltac use_names :=
  repeat match goal with
    | H : getNICParameters _ _ _ = Val _ |- _ =>
        rewrite (getNICParameters_name _ _ _ _ H); simpl
    | H : getVMParameters _ _ _ _ = Val _ |- _ =>
        rewrite (getVMParameters_name _ _ _ _ _ H); simpl
    end.

Opaque getNICParameters getVMParameters getImageReference getAzureDataDiskNames
  deleteVMNicDisks.

Ltac exec_step Q HP :=
  lazymatch goal with
  | |- Q ?X =>
      let t := head_scrutinee X in
      lazymatch t with
      | (mbind ?f ?m) ?s => rewrite (bind_run m f s)
      | mret _ _ => unfold mret, M_ret; simpl
      | lift ?o ?s => change (lift o s) with (o, s); simpl
      | call ?c ?op ?s =>
          rewrite (call_run c op s); destruct (op (world s)) as [[?|?] ?] eqn:?; simpl
      | call_err ?c ?op ?s =>
          rewrite (call_err_run c op s); destruct (op (world s)) as [[?|] ?] eqn:?; simpl
      | cleanUp ?e ?c ?rg ?vm ?nic ?disk ?names ?s =>
          rewrite (cleanUp_run c rg vm nic disk names s);
          let s1 := fresh "failed" in
          remember s as s1 eqn:?;
          let H := fresh "Hteardown" in
          pose proof (issues_mono _ _ _ (HP rg vm nic disk names)
                        (issues_deleteVMNicDisks e c rg vm nic disk names) s1) as H;
          destruct (deleteVMNicDisks e c rg vm nic disk names s1) as [[[?|]|?] ?] eqn:?;
          simpl in H; destruct H as (? & ? & ? & ? & ?); simpl
      | resolveImage _ _ _ _ _ _ _ _ _ => unfold resolveImage
      | bool_decide _ => case_bool_decide; try congruence; simpl
      | (_, _) => fail
      | _ => first [progress simpl | destruct t eqn:?; simpl; use_names]
      end
  end.

Lemma dataDiskNames_run vmName spec (s : State) :
  (if bool_decide (0 < length (DataDisks (StorageProfile (Properties spec))))%nat
   then lift (getAzureDataDiskNames (DataDisks (StorageProfile (Properties spec)))
                vmName dataDiskSuffix)
   else mret []) s =
  (Val (imap (dataDiskNameAt vmName dataDiskSuffix)
          (DataDisks (StorageProfile (Properties spec)))), s).
Proof.
  pose proof (dataDiskNamesOf_eq vmName spec) as H. unfold dataDiskNamesOf in H.
  case_bool_decide; unfold lift; by rewrite ?H; try injection H as <-.
Qed.

(** At the end of a path: the events issued on it, each satisfying the
    property at hand. *)
Ltac solve_trace :=
  simpl;
  repeat match goal with H : trace ?s1 = _ |- _ => rewrite H; clear H end;
  repeat match goal with H : ?s1 = record _ _ _ _ |- _ => subst s1 end; simpl;
  rewrite <- ?app_assoc; eexists; split; [reflexivity|];
  repeat first [ assumption | apply Forall_nil_2 | apply Forall_cons_2; [done|]
               | apply Forall_app_2 ].

Lemma issued_eq {A : Type} (m : M A) (s : State) evs :
  trace (m s).2 = trace s ++ evs → issued m s = evs.
Proof. intros H. unfold issued. by rewrite H, drop_app_length. Qed.

(** The explicit image ID, as [createVMNicDisk] runs: no call looks an
    image up or touches a marketplace agreement. *)
Lemma createVMNicDisk_explicit_ID (req : CreateMachineRequest) (s : State) spec :
  decodeProviderSpecAndSecret env (Request_MachineClass req) (Request_Secret req)
    = Ok spec →
  AzureImageReference_ID (ImageReference (StorageProfile (Properties spec))) ≠ "" →
  ∃ evs, trace (createVMNicDisk env req s).2 = trace s ++ evs ∧
         Forall (λ ev : Event, image_call ev.1 = false) evs.
Proof.
  intros Hdecode HID. pattern (createVMNicDisk env req s).
  match goal with |- ?P _ => remember P as Q eqn:HQ end.
  unfold createVMNicDisk. rewrite Hdecode.
  repeat first [ rewrite dataDiskNames_run; simpl
               | exec_step Q teardown_calls_no_image ].
  all: subst Q; solve_trace.
Qed.

(** C7: when the image reference of the spec has a non-empty ID, the image
    reference of the machine is that ID and nothing else, whatever the
    URN, and the creation workflow issues no image lookup and no fetch or
    acceptance of a marketplace agreement. *)
Theorem explicit_image_id_skips_lookup (req : CreateMachineRequest) (s : State)
    (spec : AzureProviderSpec) (d : MachinePlugin) :
  decodeProviderSpecAndSecret env (Request_MachineClass req) (Request_Secret req)
    = Ok spec →
  Plugin_AzureProviderSpec d = Some spec →
  AzureImageReference_ID (ImageReference (StorageProfile (Properties spec))) ≠ "" →
  getImageReference d = Val {|
    compute.ImageReference_Publisher := None;
    compute.ImageReference_Offer := None;
    compute.ImageReference_Sku := None;
    compute.ImageReference_Version := None;
    compute.ImageReference_ID :=
      Some (AzureImageReference_ID (ImageReference (StorageProfile (Properties spec))))
  |} ∧
  Forall (λ ev : Event, image_call ev.1 = false) (issued (createVMNicDisk env req) s).
Proof.
  intros Hdecode Hspec HID. split; [by apply getImageReference_ID|].
  destruct (createVMNicDisk_explicit_ID req s spec Hdecode HID) as (evs & Htrace & Hevs).
  by rewrite (issued_eq _ _ _ Htrace).
Qed.

(** Which event of an explicit list of events a given event is. *)
Ltac split_elem H :=
  repeat match type of H with
    | _ ∈ _ ++ _ => apply elem_of_app in H as [H|H]
    | _ ∈ _ :: _ => apply elem_of_cons in H as [H|H]
    end.

Ltac refute_elem H :=
  first [ by apply elem_of_nil in H
        | discriminate H
        | match goal with
          | HP : Forall _ ?x |- _ =>
              rewrite Forall_forall in HP; specialize (HP _ H); simpl in HP; congruence
          end ].

Ltac explicit_trace :=
  eexists; split;
    [ repeat match goal with H : trace ?s1 = _ |- _ => rewrite H end;
      repeat match goal with H : ?s1 = record _ _ _ _ |- _ => rewrite H end;
      simpl; rewrite <- ?app_assoc; reflexivity | ].

(** What [createVMNicDisk] does after a step has failed. *)
Lemma createVMNicDisk_rollback (req : CreateMachineRequest) (s : State) spec :
  decodeProviderSpecAndSecret env (Request_MachineClass req) (Request_Secret req)
    = Ok spec →
  let vmName := strings_ToLower env (Machine_Name req) in
  ∃ evs, trace (createVMNicDisk env req s).2 = trace s ++ evs ∧
    ∀ c err st, (c, Some err) ∈ evs → creation_step c = Some st →
    ∃ clients s1 out s2,
      last (trace s1) = Some (c, Some err) ∧
      trace s1 `prefix_of` trace (createVMNicDisk env req s).2 ∧
      deleteVMNicDisks env clients (ResourceGroup spec) vmName
        (dependencyNameFromVMName vmName nicSuffix)
        (dependencyNameFromVMName vmName diskSuffix)
        (imap (dataDiskNameAt vmName dataDiskSuffix)
           (DataDisks (StorageProfile (Properties spec)))) s1 = (out, s2) ∧
      match out with
      | Val deleteErr =>
          (createVMNicDisk env req s).1 = Val (Err (surfaced env req st err)) ∧
          world (createVMNicDisk env req s).2 = world s2 ∧
          klog (createVMNicDisk env req s).2 =
            klog s2 ++
            match deleteErr with
            | Some err' =>
                ["Error occurred during resource clean up: " +:+ Error env err']
            | None => []
            end
      | Panic p => createVMNicDisk env req s = (Panic p, s2)
      end.
Proof.
  intros Hdecode vmName. pattern (createVMNicDisk env req s).
  match goal with |- ?P _ => remember P as Q eqn:HQ end.
  unfold createVMNicDisk. rewrite Hdecode.
  repeat first [ rewrite dataDiskNames_run; simpl
               | exec_step Q teardown_calls_no_step ].
  all: subst Q; simpl; explicit_trace.
  all: intros c0 err0 st Hin Hstep; simpl in Hin; split_elem Hin.
  all: try solve [refute_elem Hin].
  all: simplify_eq; simpl in Hstep; simplify_eq.
  all: match goal with
       | Htd : deleteVMNicDisks _ ?c _ _ _ _ _ ?s1 = (?out, ?s2) |- _ =>
           exists c, s1, out, s2
       end.
  all: split; [simpl; apply last_snoc|].
  all: split; [repeat match goal with H : trace ?s1 = _ |- _ => rewrite H end;
               solve [repeat first [reflexivity | apply prefix_app_r]]|].
  all: split; [done|].
  all: simpl; try done.
  all: split_and!; try done.
  all: by rewrite app_nil_r.
Qed.

(** C1: when a step of the creation workflow after the subnet lookup has
    come back with an error, [deleteVMNicDisks] has been run, with the
    names derived from the lowercased machine name, from the state in
    which that step had just failed.  When the teardown returns, with or
    without an error of its own, the workflow returns the error of the
    step, as the error reporter hands it on (the NIC fetch error as it
    is); the error of the teardown goes to the log and nowhere else.  A
    teardown that panics takes the workflow with it. *)
Theorem failed_step_rolls_back (req : CreateMachineRequest) (s : State)
    (c : Call) (err : error) (st : step) :
  (c, Some err) ∈ issued (createVMNicDisk env req) s →
  creation_step c = Some st →
  let vmName := strings_ToLower env (Machine_Name req) in
  ∃ spec clients dataDiskNames s1 out s2,
    decodeProviderSpecAndSecret env (Request_MachineClass req) (Request_Secret req)
      = Ok spec ∧
    dataDiskNamesOf vmName spec = Val dataDiskNames ∧
    last (trace s1) = Some (c, Some err) ∧
    trace s1 `prefix_of` trace (createVMNicDisk env req s).2 ∧
    deleteVMNicDisks env clients (ResourceGroup spec) vmName
      (dependencyNameFromVMName vmName nicSuffix)
      (dependencyNameFromVMName vmName diskSuffix) dataDiskNames s1 = (out, s2) ∧
    match out with
    | Val deleteErr =>
        (createVMNicDisk env req s).1 = Val (Err (surfaced env req st err)) ∧
        world (createVMNicDisk env req s).2 = world s2 ∧
        klog (createVMNicDisk env req s).2 =
          klog s2 ++
          match deleteErr with
          | Some err' => ["Error occurred during resource clean up: " +:+ Error env err']
          | None => []
          end
    | Panic p => createVMNicDisk env req s = (Panic p, s2)
    end.
Proof.
  intros Hin Hstep vmName.
  destruct (decodeProviderSpecAndSecret env (Request_MachineClass req)
              (Request_Secret req)) as [spec|decodeErr] eqn:Hdecode.
  - destruct (createVMNicDisk_rollback req s spec Hdecode) as (evs & Htrace & Hevs).
    rewrite (issued_eq _ _ _ Htrace) in Hin.
    destruct (Hevs c err st Hin Hstep) as (clients & s1 & out & s2 & H1 & H2 & H3 & H4).
    exists spec, clients, (imap (dataDiskNameAt vmName dataDiskSuffix)
                             (DataDisks (StorageProfile (Properties spec)))), s1, out, s2.
    split_and!; try done. apply dataDiskNamesOf_eq.
  - exfalso. unfold issued, createVMNicDisk in Hin. rewrite Hdecode in Hin.
    simpl in Hin. rewrite drop_all in Hin. by apply elem_of_nil in Hin.
Qed.

(** Every call of a run of [createVMNicDisk] that creates or tears down a
    resource names it from the lowercased machine name. *)
Lemma createVMNicDisk_names (req : CreateMachineRequest) (s : State) spec :
  decodeProviderSpecAndSecret env (Request_MachineClass req) (Request_Secret req)
    = Ok spec →
  let vmName := strings_ToLower env (Machine_Name req) in
  ∃ evs, trace (createVMNicDisk env req s).2 = trace s ++ evs ∧
    Forall (λ ev : Event,
              names_resources (ResourceGroup spec) vmName
                (dependencyNameFromVMName vmName nicSuffix)
                (dependencyNameFromVMName vmName diskSuffix)
                (imap (dataDiskNameAt vmName dataDiskSuffix)
                   (DataDisks (StorageProfile (Properties spec)))) ev.1) evs.
Proof.
  intros Hdecode vmName. pattern (createVMNicDisk env req s).
  match goal with |- ?P _ => remember P as Q eqn:HQ end.
  unfold createVMNicDisk. rewrite Hdecode.
  repeat first [ rewrite dataDiskNames_run; simpl
               | exec_step Q teardown_calls_names ].
  all: subst Q; simpl;
    repeat match goal with H : trace ?s1 = _ |- _ => rewrite H; clear H end;
    repeat match goal with H : ?s1 = record _ _ _ _ |- _ => subst s1 end; simpl;
    rewrite <- ?app_assoc; eexists; (split; [reflexivity|]).
  all: repeat first
         [ assumption | apply Forall_nil_2 | apply Forall_app_2
         | apply Forall_cons_2;
             [ simpl; first [ done
                            | split_and!;
                                eauto using getNICParameters_name, getVMParameters_name ]
             | ] ].
Qed.

(** C9: the machine name enters the creation workflow through
    [strings.ToLower] only.  Every call that creates or tears down a
    resource names it from the lowercased machine name: the machine by
    that name, the NIC and the OS disk by that name and their suffix, the
    data disks by the names derived from it.  So two requests that differ
    in their machine names alone, and whose machine names have the same
    lowercase form, make the workflow do the same thing: the same calls,
    with the same resource names, and the same result. *)
Theorem machine_name_is_lowercased (req1 req2 : CreateMachineRequest) (s : State)
    (spec : AzureProviderSpec) :
  decodeProviderSpecAndSecret env (Request_MachineClass req1) (Request_Secret req1)
    = Ok spec →
  strings_ToLower env (Machine_Name req1) = strings_ToLower env (Machine_Name req2) →
  Request_MachineClass req1 = Request_MachineClass req2 →
  Request_Secret req1 = Request_Secret req2 →
  let vmName := strings_ToLower env (Machine_Name req1) in
  Forall (λ ev : Event,
            names_resources (ResourceGroup spec) vmName
              (dependencyNameFromVMName vmName nicSuffix)
              (dependencyNameFromVMName vmName diskSuffix)
              (imap (dataDiskNameAt vmName dataDiskSuffix)
                 (DataDisks (StorageProfile (Properties spec)))) ev.1)
    (issued (createVMNicDisk env req1) s) ∧
  createVMNicDisk env req1 s = createVMNicDisk env req2 s.
Proof.
  intros Hdecode Hname Hclass Hsecret vmName. split.
  - destruct (createVMNicDisk_names req1 s spec Hdecode) as (evs & Htrace & Hevs).
    by rewrite (issued_eq _ _ _ Htrace).
  - unfold createVMNicDisk, resolveImage. by rewrite Hname, Hclass, Hsecret.
Qed.

(** With an empty ID and an URN that is nil or has fewer than three colons
    the creation workflow never returns a machine, and panics once the NIC
    has been fetched. *)
Lemma createVMNicDisk_malformed_URN (req : CreateMachineRequest) (s : State) spec p :
  decodeProviderSpecAndSecret env (Request_MachineClass req) (Request_Secret req)
    = Ok spec →
  AzureImageReference_ID (ImageReference (StorageProfile (Properties spec))) = "" →
  (∀ d, Plugin_AzureProviderSpec d = Some spec → getImageReference d = Panic p) →
  ∃ evs, trace (createVMNicDisk env req s).2 = trace s ++ evs ∧
    (∀ vm, (createVMNicDisk env req s).1 ≠ Val (Ok vm)) ∧
    ((NICFuture_Result, None) ∈ evs → (createVMNicDisk env req s).1 = Panic p).
Proof.
  intros Hdecode HID Hbad. pattern (createVMNicDisk env req s).
  match goal with |- ?P _ => remember P as Q eqn:HQ end.
  unfold createVMNicDisk. rewrite Hdecode.
  repeat first [ rewrite dataDiskNames_run; simpl
               | rewrite Hbad by reflexivity; simpl
               | exec_step Q teardown_calls_no_step ].
  all: subst Q; simpl; explicit_trace.
  all: split; [done|].
  all: try done.
  all: intros Hin; exfalso; simpl in Hin; split_elem Hin; refute_elem Hin.
Qed.

(** C10: with an empty ID, [getImageReference] returns an image reference
    exactly when the URN is not nil and has at least three colons, and
    the reference then holds the first four pieces of the URN between
    the colons; otherwise it panics, on the nil pointer or on the first index out of
    range, and so does the creation workflow as soon as it has fetched the
    NIC, which therefore never returns a machine. *)
Theorem urn_is_not_guarded (req : CreateMachineRequest) (s : State)
    (spec : AzureProviderSpec) (d : MachinePlugin) :
  decodeProviderSpecAndSecret env (Request_MachineClass req) (Request_Secret req)
    = Ok spec →
  Plugin_AzureProviderSpec d = Some spec →
  AzureImageReference_ID (ImageReference (StorageProfile (Properties spec))) = "" →
  let URN := AzureImageReference_URN (ImageReference (StorageProfile (Properties spec))) in
  ((∃ imageReference, getImageReference d = Val imageReference) ↔
   (∃ urn, URN = Some urn ∧ (3 ≤ count_byte ":" urn)%nat)) ∧
  (∀ urn, URN = Some urn → (3 ≤ count_byte ":" urn)%nat →
     getImageReference d = Val {|
       compute.ImageReference_Publisher := strings_Split urn ":" !! 0%nat;
       compute.ImageReference_Offer := strings_Split urn ":" !! 1%nat;
       compute.ImageReference_Sku := strings_Split urn ":" !! 2%nat;
       compute.ImageReference_Version := strings_Split urn ":" !! 3%nat;
       compute.ImageReference_ID := None
     |}) ∧
  ((¬ ∃ urn, URN = Some urn ∧ (3 ≤ count_byte ":" urn)%nat) →
   ∃ p, getImageReference d = Panic p ∧
        (p = NilDereference ∨ ∃ n, p = IndexOutOfRange n n) ∧
        (∀ vm, (createVMNicDisk env req s).1 ≠ Val (Ok vm)) ∧
        ((NICFuture_Result, None) ∈ issued (createVMNicDisk env req) s →
         (createVMNicDisk env req s).1 = Panic p)).
Proof.
  intros Hdecode Hspec HID URN.
  assert (Hcases : (∃ urn, URN = Some urn ∧ (3 ≤ count_byte ":" urn)%nat) ∨
                   ∃ p, (p = NilDereference ∨ ∃ n, p = IndexOutOfRange n n) ∧
                        ∀ d', Plugin_AzureProviderSpec d' = Some spec →
                              getImageReference d' = Panic p).
  { destruct URN as [urn|] eqn:HURN.
    - destruct (decide (3 ≤ count_byte ":" urn)%nat) as [Hlong|Hshort]; [by eauto|].
      right. eexists. split; [right; by eexists|]. intros d' Hd'.
      apply (getImageReference_URN_short d' spec Hd' urn HID HURN). lia.
    - right. exists NilDereference. split; [by left|]. intros d' Hd'.
      by apply (getImageReference_URN_nil d' spec Hd' HID). }
  split_and!.
  - split.
    + intros [imageReference Href]. destruct Hcases as [?|(p & _ & Hp)]; [done|].
      rewrite (Hp d Hspec) in Href. discriminate.
    + intros (urn & HURN & Hlong).
      rewrite (getImageReference_URN_long d spec Hspec urn HID HURN Hlong). by eexists.
  - intros urn HURN Hlong. by apply (getImageReference_URN_long d spec Hspec).
  - intros Hmalformed. destruct Hcases as [?|(p & Hp & Hpanic)]; [done|].
    exists p. split; [by apply Hpanic|]. split; [done|].
    destruct (createVMNicDisk_malformed_URN req s spec p Hdecode HID Hpanic)
      as (evs & Htrace & Hnever & Hpanics).
    by rewrite (issued_eq _ _ _ Htrace).
Qed.

(** *** The run as a whole *)

Lemma position_creation_step c p :
  position c = Some p → (2 ≤ p)%nat → ∃ st, creation_step c = Some st.
Proof.
  destruct c; simpl; intros [= <-] ?; try lia; by eexists.
Qed.

Lemma teardown_op_no_position c : is_teardown_op c = true → position c = None.
Proof. by destruct c. Qed.

Lemma teardown_calls_aftermath resourceGroupName VMName nicName diskName dataDiskNames c :
  teardown_calls resourceGroupName VMName nicName diskName dataDiskNames c →
  position c = None ∧ image_call c = false.
Proof. by destruct c. Qed.

Lemma in_order_lookup (evs : list (Call * option error)) : ∀ next j c e p,
  in_order next evs → evs !! j = Some (c, e) → position c = Some p → (next ≤ p)%nat.
Proof.
  induction evs as [|[c0 e0] rest IH]; intros next j c e p Hord Hj Hp; [done|].
  simpl in Hord. destruct j as [|j]; simpl in Hj.
  - injection Hj as -> ->. rewrite Hp in Hord. destruct e; by destruct Hord.
  - destruct (position c0) as [p0|], e0 as [err0|]; try done.
    + destruct Hord as [_ Hrest]. rewrite Forall_lookup in Hrest.
      destruct (Hrest _ _ Hj) as [Hnone _]. simpl in Hnone. congruence.
    + destruct Hord as [? Hrest]. pose proof (IH _ _ _ _ _ Hrest Hj Hp). lia.
    + destruct Hord as [_ Hrest]. by eapply IH.
Qed.

Lemma in_order_sorted (evs : list (Call * option error)) : ∀ next i j ci ei cj ej pi pj,
  in_order next evs →
  evs !! i = Some (ci, ei) → evs !! j = Some (cj, ej) → (i < j)%nat →
  position ci = Some pi → position cj = Some pj →
  (pi < pj)%nat ∧ ei = None.
Proof.
  induction evs as [|[c0 e0] rest IH]; intros next i j ci ei cj ej pi pj Hord Hi Hj Hlt Hpi Hpj;
    [done|].
  simpl in Hord. destruct j as [|j]; [lia|]. simpl in Hj. destruct i as [|i]; simpl in Hi.
  - injection Hi as -> ->. rewrite Hpi in Hord. destruct ei as [err|].
    + destruct Hord as [_ Hrest]. rewrite Forall_lookup in Hrest.
      destruct (Hrest _ _ Hj) as [Hnone _]. simpl in Hnone. congruence.
    + destruct Hord as [_ Hrest].
      pose proof (in_order_lookup _ _ _ _ _ _ Hrest Hj Hpj). split; [lia|done].
  - assert (i < j)%nat by lia.
    destruct (position c0) as [p0|], e0 as [err0|]; try done.
    + destruct Hord as [_ Hrest]. rewrite Forall_lookup in Hrest.
      destruct (Hrest _ _ Hj) as [Hnone _]. simpl in Hnone. congruence.
    + destruct Hord as [_ Hrest]. by eapply IH.
    + destruct Hord as [_ Hrest]. by eapply IH.
Qed.

Lemma in_order_teardown (evs : list (Call * option error)) : ∀ next j c e,
  in_order next evs → evs !! j = Some (c, e) → is_teardown_op c = true →
  ∃ i c' err st,
    (i < j)%nat ∧ evs !! i = Some (c', Some err) ∧ creation_step c' = Some st.
Proof.
  induction evs as [|[c0 e0] rest IH]; intros next j c e Hord Hj Hop; [done|].
  simpl in Hord. destruct j as [|j]; simpl in Hj.
  - injection Hj as -> ->. rewrite (teardown_op_no_position _ Hop) in Hord.
    destruct e; [done|]. destruct Hord as [Hno _]. congruence.
  - destruct (position c0) as [p0|] eqn:Hp0, e0 as [err0|]; try done.
    + destruct Hord as [_ Hrest]. rewrite Forall_lookup in Hrest.
      destruct (Hrest _ _ Hj) as [_ Hearly]. simpl in Hearly.
      destruct (decide (p0 < 2)%nat) as [Hlt|Hge]; [rewrite Hearly in Hop; done|].
      destruct (position_creation_step c0 p0 Hp0) as [st Hst]; [lia|].
      exists 0%nat, c0, err0, st. split; [lia|done].
    + destruct Hord as [_ Hrest].
      destruct (IH _ _ _ _ Hrest Hj Hop) as (i & c' & err & st & ? & ? & ?).
      exists (S i), c', err, st. split; [lia|done].
    + destruct Hord as [_ Hrest].
      destruct (IH _ _ _ _ Hrest Hj Hop) as (i & c' & err & st & ? & ? & ?).
      exists (S i), c', err, st. split; [lia|done].
Qed.

Lemma in_order_clean (evs : list (Call * option error)) : ∀ next,
  in_order next evs → Forall (λ ev : Call * option error, ev.2 = None) evs →
  Forall (λ ev : Call * option error, is_teardown_op ev.1 = false) evs.
Proof.
  induction evs as [|[c0 e0] rest IH]; intros next Hord Hall; [constructor|].
  apply Forall_cons in Hall as [Hnone Hall]. simpl in Hnone. subst e0.
  simpl in Hord. destruct (position c0) as [p0|] eqn:Hp0.
  - destruct Hord as [_ Hrest]. constructor; [|by eapply IH].
    simpl. destruct (is_teardown_op c0) eqn:Hop; [|done].
    rewrite (teardown_op_no_position _ Hop) in Hp0. done.
  - destruct Hord as [Hno Hrest]. constructor; [done|by eapply IH].
Qed.

Lemma createVMNicDisk_undecoded (req : CreateMachineRequest) (s : State) err :
  decodeProviderSpecAndSecret env (Request_MachineClass req) (Request_Secret req)
    = Err err →
  createVMNicDisk env req s = (Val (Err err), s) ∧
  issued (createVMNicDisk env req) s = [].
Proof.
  intros Hdecode. unfold issued, createVMNicDisk. rewrite Hdecode. simpl.
  by rewrite drop_all.
Qed.

(** Which event of an explicit list of events is the one looked for. *)
Ltac find_elem :=
  first [ apply list_elem_of_here
        | apply elem_of_app; left; find_elem
        | apply elem_of_app; right; find_elem
        | apply list_elem_of_further; find_elem ].

Ltac refute_image H :=
  first [ by apply elem_of_nil in H
        | discriminate H
        | match goal with
          | HP : Forall _ ?x |- _ =>
              rewrite Forall_forall in HP; specialize (HP _ H); simpl in HP;
              destruct HP; congruence
          end ].

Ltac solve_order :=
  repeat match goal with
    | |- _ ∧ _ => split
    | |- (_ ≤ _)%nat => lia
    | |- True => exact I
    | |- _ = _ => reflexivity
    | |- Forall _ [] => apply Forall_nil_2
    | |- Forall _ (_ :: _) => apply Forall_cons_2
    | |- Forall _ (_ ++ _) => apply Forall_app_2
    | H : Forall _ ?x |- Forall _ ?x =>
        eapply Forall_impl; [exact H|]; simpl; intros ? [? ?]; split; [done|intros; lia]
    | |- _ → _ => intros ?; try lia
    end.

Ltac solve_plugin :=
  simpl;
  repeat match goal with H : plugin ?s1 = _ |- _ => rewrite H; clear H end;
  repeat match goal with H : ?s1 = record _ _ _ _ |- _ => subst s1 end;
  reflexivity.

(** The whole of a run of [createVMNicDisk] on a request that decodes:
    where it leaves the plugin, what it issues and in which order, how
    the result shows in the events, how it accepts an agreement, and
    which machine definition it submits. *)
Lemma createVMNicDisk_run (req : CreateMachineRequest) (s : State) spec :
  decodeProviderSpecAndSecret env (Request_MachineClass req) (Request_Secret req)
    = Ok spec →
  plugin (createVMNicDisk env req s).2 =
    {| Plugin_AzureProviderSpec := Some spec;
       Plugin_Secret := Plugin_Secret (plugin s) |} ∧
  ∃ evs, trace (createVMNicDisk env req s).2 = trace s ++ evs ∧
    in_order 0 evs ∧
    match (createVMNicDisk env req s).1 with
    | Val (Ok _) =>
        Forall (λ ev : Call * option error, ev.2 = None) evs ∧
        forallb (λ st, existsb (succeeded st) evs) mandatory_steps = true
    | Val (Err _) => existsb failed_call evs = true
    | Panic _ => True
    end ∧
    (∀ publisher product name agreement err,
       (Marketplace_Create publisher product name agreement, err) ∈ evs →
       agreement = acceptedAgreement ∧
       (Marketplace_Get publisher product name, None) ∈ evs) ∧
    (∀ group name parameters err,
       (VM_CreateOrUpdate group name parameters, err) ∈ evs →
       ∃ image networkInterfaceReferenceID future clients w NIC w',
         NICFuture_result env future clients w = (Ok NIC, w') ∧
         network.Interface_ID NIC = Some networkInterfaceReferenceID ∧
         getVMParameters
           {| Plugin_AzureProviderSpec := Some spec;
              Plugin_Secret := Plugin_Secret (plugin s) |}
           (strings_ToLower env (Machine_Name req)) image networkInterfaceReferenceID
         = Val parameters) ∧
    (∀ group name parameters err,
       (Nic_CreateOrUpdate group name parameters, err) ∈ evs →
       ∃ clients vnetGroup w subnet w',
         GetSubnet_Get env clients vnetGroup (VnetName (SubnetInfo spec))
           (SubnetName (SubnetInfo spec)) "" w = (Ok subnet, w') ∧
         getNICParameters
           {| Plugin_AzureProviderSpec := Some spec;
              Plugin_Secret := Plugin_Secret (plugin s) |}
           (strings_ToLower env (Machine_Name req)) subnet
         = Val parameters).
Proof.
  intros Hdecode. pattern (createVMNicDisk env req s).
  match goal with |- ?P _ => remember P as Q eqn:HQ end.
  unfold createVMNicDisk. rewrite Hdecode.
  repeat first [ rewrite dataDiskNames_run; simpl
               | exec_step Q teardown_calls_aftermath ].
  all: subst Q; split; [solve_plugin|]; simpl; explicit_trace.
  all: split; [simpl; solve_order|].
  all: split; [simpl; rewrite ?existsb_app; simpl;
               first [ exact I | reflexivity | split; [solve_order|reflexivity] ]|].
  all: split_and!;
    [ intros publisher product name agreement err0 Hin
    | intros group name parameters err0 Hin
    | intros group name parameters err0 Hin ];
    simpl in Hin; split_elem Hin.
  all: try solve [refute_image Hin].
  all: simplify_eq;
    first [ split; [reflexivity|find_elem]
          | eexists _, _, _, _, _, _, _; split; [eassumption|]; split; [|eassumption];
            match goal with
            | H : deref ?x = Val _ |- ?x = Some _ => by destruct x; simplify_eq/=
            end
          | eexists _, _, _, _, _; split; eassumption ].
Qed.

(** X9: the calls of the creation workflow are issued in the order of the
    workflow (session, subnet, the three steps of the NIC, the image and
    its agreement, the three steps of the machine), each at most once,
    and a call of the workflow is followed by another one only when it
    came back without error. *)
Theorem creation_calls_in_order (req : CreateMachineRequest) (s : State)
    (i j : nat) (ci cj : Call) (ei ej : option error) (pi pj : nat) :
  issued (createVMNicDisk env req) s !! i = Some (ci, ei) →
  issued (createVMNicDisk env req) s !! j = Some (cj, ej) →
  (i < j)%nat →
  position ci = Some pi →
  position cj = Some pj →
  (pi < pj)%nat ∧ ei = None.
Proof.
  intros Hi Hj Hlt Hpi Hpj.
  destruct (decodeProviderSpecAndSecret env (Request_MachineClass req)
              (Request_Secret req)) as [spec|decodeErr] eqn:Hdecode.
  - destruct (createVMNicDisk_run req s spec Hdecode) as (_ & evs & Htrace & Hord & _).
    rewrite (issued_eq _ _ _ Htrace) in Hi, Hj.
    by eapply in_order_sorted.
  - destruct (createVMNicDisk_undecoded req s decodeErr Hdecode) as [_ Hnil].
    by rewrite Hnil in Hi.
Qed.

(** X10: the result of the creation workflow shows in its calls.  When it
    returns a machine, no call came back with an error, nothing was
    looked up or deleted for a teardown, and the NIC and the machine
    were each submitted, awaited and fetched.  When it returns an error,
    either the request could not be decoded, and the error is the
    decoder's, or a call of the workflow came back with an error. *)
Theorem result_shows_in_calls (req : CreateMachineRequest) (s : State) :
  match (createVMNicDisk env req s).1 with
  | Val (Ok _) =>
      Forall (λ ev : Call * option error, ev.2 = None ∧ is_teardown_op ev.1 = false)
        (issued (createVMNicDisk env req) s) ∧
      Forall (λ st, ∃ c, (c, None) ∈ issued (createVMNicDisk env req) s ∧
                         creation_step c = Some st) mandatory_steps
  | Val (Err err) =>
      decodeProviderSpecAndSecret env (Request_MachineClass req) (Request_Secret req)
        = Err err ∨
      ∃ c err', (c, Some err') ∈ issued (createVMNicDisk env req) s ∧
                is_Some (position c)
  | Panic _ => True
  end.
Proof.
  destruct (decodeProviderSpecAndSecret env (Request_MachineClass req)
              (Request_Secret req)) as [spec|decodeErr] eqn:Hdecode.
  - destruct (createVMNicDisk_run req s spec Hdecode)
      as (_ & evs & Htrace & Hord & Hresult & _).
    rewrite (issued_eq _ _ _ Htrace).
    destruct (createVMNicDisk env req s).1 as [[vm|err]|p]; [| |done].
    + destruct Hresult as [Hnone Hsteps]. split.
      * pose proof (in_order_clean _ _ Hord Hnone) as Hclean.
        rewrite Forall_forall in Hnone, Hclean. apply Forall_forall. intros ev Hev.
        split; [by apply Hnone|by apply Hclean].
      * rewrite forallb_forall in Hsteps. apply Forall_forall. intros st Hst.
        apply list_elem_of_In, Hsteps, existsb_exists in Hst as ([c e] & Hin & Hok).
        unfold succeeded in Hok. simpl in Hok.
        destruct (creation_step c) as [st'|] eqn:Hc, e; try done.
        apply bool_decide_eq_true in Hok as ->.
        exists c. split; [by apply list_elem_of_In|done].
    + right. apply existsb_exists in Hresult as ([c e] & Hin & Hfailed).
      unfold failed_call in Hfailed. simpl in Hfailed.
      destruct (position c) as [p|] eqn:Hc, e as [err'|]; try done.
      exists c, err'. split; [by apply list_elem_of_In|]. rewrite Hc. by eexists.
  - destruct (createVMNicDisk_undecoded req s decodeErr Hdecode) as [-> _]. by left.
Qed.

(** X11: a teardown is only ever run after a step of the creation
    workflow from the submission of the NIC on has failed: every call of
    the run that looks at, or deletes, a machine, a NIC or a disk comes
    after a creation step that came back with an error.  So a failure of
    the session or of the subnet lookup deletes nothing. *)
Theorem teardown_only_after_failed_step (req : CreateMachineRequest) (s : State)
    (j : nat) (c : Call) (e : option error) :
  issued (createVMNicDisk env req) s !! j = Some (c, e) →
  is_teardown_op c = true →
  ∃ i c' err st,
    (i < j)%nat ∧
    issued (createVMNicDisk env req) s !! i = Some (c', Some err) ∧
    creation_step c' = Some st.
Proof.
  intros Hj Hop.
  destruct (decodeProviderSpecAndSecret env (Request_MachineClass req)
              (Request_Secret req)) as [spec|decodeErr] eqn:Hdecode.
  - destruct (createVMNicDisk_run req s spec Hdecode) as (_ & evs & Htrace & Hord & _).
    rewrite (issued_eq _ _ _ Htrace) in Hj |- *.
    by eapply in_order_teardown.
  - destruct (createVMNicDisk_undecoded req s decodeErr Hdecode) as [_ Hnil].
    by rewrite Hnil in Hj.
Qed.


(** X13: what the creation workflow leaves in the plugin object: the
    decoded spec, whatever the run then does, also when it fails, rolls
    back or panics, and the secret that was there; and the plugin as it
    was when the request does not decode. *)
Theorem createVMNicDisk_plugin (req : CreateMachineRequest) (s : State) :
  plugin (createVMNicDisk env req s).2 =
  match decodeProviderSpecAndSecret env (Request_MachineClass req) (Request_Secret req) with
  | Ok spec => {| Plugin_AzureProviderSpec := Some spec;
                  Plugin_Secret := Plugin_Secret (plugin s) |}
  | Err _ => plugin s
  end.
Proof.
  destruct (decodeProviderSpecAndSecret env (Request_MachineClass req)
              (Request_Secret req)) as [spec|decodeErr] eqn:Hdecode.
  - by destruct (createVMNicDisk_run req s spec Hdecode) as [-> _].
  - by destruct (createVMNicDisk_undecoded req s decodeErr Hdecode) as [-> _].
Qed.

(** X14: the failures before anything is created.  When the session
    cannot be set up, the workflow returns the error of the session
    provider as it is, having called nothing else.  When the subnet
    lookup fails, it returns the error as the error reporter hands it
    on, having called the session provider, the lookup and the reporter
    and nothing else: no NIC is submitted and no teardown is run. *)
Theorem failures_before_creation (req : CreateMachineRequest) (s : State)
    (spec : AzureProviderSpec) :
  decodeProviderSpecAndSecret env (Request_MachineClass req) (Request_Secret req)
    = Ok spec →
  let s0 := {| plugin := {| Plugin_AzureProviderSpec := Some spec;
                            Plugin_Secret := Plugin_Secret (plugin s) |};
               world := world s; trace := trace s; klog := klog s |} in
  let group := default (ResourceGroup spec) (VnetResourceGroup (SubnetInfo spec)) in
  let vnet := VnetName (SubnetInfo spec) in
  let subnet := SubnetName (SubnetInfo spec) in
  (∀ err w,
     Setup env (Request_Secret req) (world s) = (Err err, w) →
     createVMNicDisk env req s = (Val (Err err), record s0 w SPI_Setup (Some err))) ∧
  (∀ clients w err w',
     Setup env (Request_Secret req) (world s) = (Ok clients, w) →
     GetSubnet_Get env clients group vnet subnet "" w = (Err err, w') →
     createVMNicDisk env req s =
       (Val (Err (OnARMAPIErrorFail env prometheusServiceSubnet err
                    ("Subnet.Get failed for " +:+ subnet +:+ " due to " +:+ Error env err))),
        record
          (record (record s0 w SPI_Setup None) w' (Subnet_Get group vnet subnet "")
             (Some err))
          w'
          (spi_OnARMAPIErrorFail prometheusServiceSubnet
             ("Subnet.Get failed for " +:+ subnet +:+ " due to " +:+ Error env err))
          None)).
Proof.
  intros Hdecode s0 group vnet subnet. split.
  - intros err w Hsetup. unfold createVMNicDisk. rewrite Hdecode.
    rewrite bind_run. simpl. rewrite bind_run, call_run. simpl. rewrite Hsetup. done.
  - intros clients w err w' Hsetup Hsubnet. unfold createVMNicDisk. rewrite Hdecode.
    rewrite bind_run. simpl. rewrite bind_run, call_run. simpl. rewrite Hsetup. simpl.
    rewrite bind_run, dataDiskNames_run. simpl.
    rewrite bind_run, call_run. simpl.
    assert (match VnetResourceGroup (SubnetInfo spec) with
            | Some g => g
            | None => ResourceGroup spec
            end = group) as -> by (unfold group; by destruct (VnetResourceGroup _)).
    fold vnet subnet. rewrite Hsubnet. simpl. by rewrite bind_run.
Qed.

End Creation.

(** ** The properties on the scripted backend *)

(** The machine is created, with an image that has a plan whose agreement
    is accepted on the way, but its fetch fails; the teardown that follows
    cannot delete the machine.  The error of the fetch is returned and the
    error of the teardown is logged. *)
Example rollback_after_VM_fetch :
  let run :=
    createVMNicDisk Fake.env (Fake.request "VM-1" "Canonical:UbuntuServer:18.04-LTS:latest")
      (Fake.start [Fake.Succeed; Fake.Succeed; Fake.Succeed; Fake.Succeed; Fake.Succeed;
                   Fake.SucceedWith "plan"; Fake.Succeed; Fake.Succeed;
                   Fake.Succeed; Fake.Succeed; Fake.Fail "fetch failed";
                   Fake.Succeed; Fake.Succeed; Fake.Fail "still running"]) in
  run.1 = Val (Err "fetch failed") ∧
  creation_step <$> (fst <$> filter (λ ev : Event, is_Some ev.2) (trace run.2)) =
    [Some VMFetch; None] ∧
  klog run.2 = ["Error occurred during resource clean up: still running"].
Proof. by vm_compute. Qed.

Lemma nic_attached_is_conflict_witness :
  FetchAttachedVMfromNIC Fake.env tt "group" "vm-1-nic"
    (world (Fake.start [Fake.SucceedWith "vm-2"])) = (Ok "vm-2", []) ∧
  "vm-2" ≠ "" ∧
  "vm-2" ≠ "vm-1" ∧
  nicDeleter Fake.env tt "group" "vm-1-nic" (Fake.start [Fake.SucceedWith "vm-2"]) =
    (Val (Some "Cannot delete NIC vm-1-nic because it is attached to VM vm-2"),
     record (Fake.start [Fake.SucceedWith "vm-2"]) []
       (spi_FetchAttachedVMfromNIC "group" "vm-1-nic") None).
Proof.
  split; [reflexivity|]. split; [discriminate|]. split; [discriminate|].
  apply (nic_attached_is_conflict Fake.env tt "group" "vm-1" "vm-1-nic"
           (Fake.start [Fake.SucceedWith "vm-2"]) "vm-2" []);
    [reflexivity|discriminate|discriminate].
Defined.

Lemma teardown_tolerates_absence_witness :
  GetVM_Get Fake.env tt "group" "vm-1" "" (world (Fake.start [Fake.Fail "not found"]))
    = (Err "not found", []) ∧
  deleteVMNicDisks Fake.env tt "group" "vm-1" "vm-1-nic" "vm-1-os-disk" []
    (Fake.start [Fake.Fail "not found"]) =
  RunInParallel Fake.env (deleters Fake.env tt "group" "vm-1-nic" "vm-1-os-disk" [])
    (record (Fake.start [Fake.Fail "not found"]) [] (VM_Get "group" "vm-1" "")
       (Some "not found")).
Proof.
  split; [reflexivity|].
  apply (teardown_tolerates_absence Fake.env tt "group" "vm-1" "vm-1-nic" "vm-1-os-disk" []
           (Fake.start [Fake.Fail "not found"]) "not found" []).
  reflexivity.
Defined.

Lemma explicit_image_id_skips_lookup_witness :
  let spec := Fake.spec (Fake.image "image-id") [Fake.happyDisk] None None in
  let d := {| Plugin_AzureProviderSpec := Some spec; Plugin_Secret := None |} in
  decodeProviderSpecAndSecret Fake.env
    (Request_MachineClass (Fake.request "VM-1" "image-id"))
    (Request_Secret (Fake.request "VM-1" "image-id")) = Ok spec ∧
  Plugin_AzureProviderSpec d = Some spec ∧
  AzureImageReference_ID (ImageReference (StorageProfile (Properties spec))) ≠ "" ∧
  Forall (λ ev : Event, image_call ev.1 = false)
    (issued (createVMNicDisk Fake.env (Fake.request "VM-1" "image-id")) (Fake.start [])).
Proof.
  intros spec d.
  split; [vm_compute; reflexivity|]. split; [reflexivity|]. split; [discriminate|].
  apply (explicit_image_id_skips_lookup Fake.env (Fake.request "VM-1" "image-id")
           (Fake.start []) spec d);
    [vm_compute; reflexivity|reflexivity|discriminate].
Defined.

Lemma machine_name_is_lowercased_witness :
  decodeProviderSpecAndSecret Fake.env
    (Request_MachineClass (Fake.request "VM-1" "image-id"))
    (Request_Secret (Fake.request "VM-1" "image-id")) =
    Ok (Fake.spec (Fake.image "image-id") [Fake.happyDisk] None None) ∧
  strings_ToLower Fake.env "VM-1" = strings_ToLower Fake.env "vm-1" ∧
  Forall (λ ev : Event,
            names_resources "group" "vm-1" "vm-1-nic" "vm-1-os-disk" ["vm-1-0-data-disk"]
              ev.1)
    (issued (createVMNicDisk Fake.env (Fake.request "VM-1" "image-id")) (Fake.start [])) ∧
  createVMNicDisk Fake.env (Fake.request "VM-1" "image-id") (Fake.start []) =
  createVMNicDisk Fake.env (Fake.request "vm-1" "image-id") (Fake.start []).
Proof.
  split; [vm_compute; reflexivity|]. split; [reflexivity|].
  apply (machine_name_is_lowercased Fake.env (Fake.request "VM-1" "image-id")
           (Fake.request "vm-1" "image-id") (Fake.start [])
           (Fake.spec (Fake.image "image-id") [Fake.happyDisk] None None));
    [vm_compute; reflexivity|reflexivity..].
Defined.

Lemma urn_is_not_guarded_witness :
  let spec := Fake.spec (Fake.image "publisher:offer") [Fake.happyDisk] None None in
  let d := {| Plugin_AzureProviderSpec := Some spec; Plugin_Secret := None |} in
  let run := createVMNicDisk Fake.env (Fake.request "VM-1" "publisher:offer")
               (Fake.start []) in
  decodeProviderSpecAndSecret Fake.env
    (Request_MachineClass (Fake.request "VM-1" "publisher:offer"))
    (Request_Secret (Fake.request "VM-1" "publisher:offer")) = Ok spec ∧
  Plugin_AzureProviderSpec d = Some spec ∧
  AzureImageReference_ID (ImageReference (StorageProfile (Properties spec))) = "" ∧
  ((∃ imageReference, getImageReference d = Val imageReference) ↔
   (∃ urn, Some "publisher:offer" = Some urn ∧ (3 ≤ count_byte ":" urn)%nat)) ∧
  run.1 = Panic (IndexOutOfRange 2 2).
Proof.
  intros spec d run.
  split; [vm_compute; reflexivity|]. split; [reflexivity|]. split; [reflexivity|].
  destruct (urn_is_not_guarded Fake.env (Fake.request "VM-1" "publisher:offer")
              (Fake.start []) spec d) as (Hiff & _ & Hpanics);
    [vm_compute; reflexivity|reflexivity|reflexivity|].
  split; [exact Hiff|]. vm_compute. reflexivity.
Defined.

Lemma failed_step_rolls_back_witness :
  let req := Fake.request "VM-1" "image-id" in
  let s := Fake.start Fake.rollbackScript in
  (Fake.failedCall, Some "quota exceeded") ∈ issued (createVMNicDisk Fake.env req) s ∧
  creation_step Fake.failedCall = Some NicSubmit ∧
  ∃ s1 out s2,
    last (trace s1) = Some (Fake.failedCall, Some "quota exceeded") ∧
    deleteVMNicDisks Fake.env tt "group" "vm-1" "vm-1-nic" "vm-1-os-disk"
      ["vm-1-0-data-disk"] s1 = (out, s2) ∧
    match out with
    | Val deleteErr =>
        (createVMNicDisk Fake.env req s).1 = Val (Err "quota exceeded") ∧
        klog (createVMNicDisk Fake.env req s).2 =
          klog s2 ++
          match deleteErr with
          | Some err' => ["Error occurred during resource clean up: " +:+ err']
          | None => []
          end
    | Panic p => createVMNicDisk Fake.env req s = (Panic p, s2)
    end.
Proof.
  intros req s.
  assert (Hin : (Fake.failedCall, Some "quota exceeded")
                ∈ issued (createVMNicDisk Fake.env req) s).
  { apply (list_elem_of_lookup_2 _ 3). vm_compute. reflexivity. }
  split; [exact Hin|]. split; [reflexivity|].
  destruct (failed_step_rolls_back Fake.env req s Fake.failedCall "quota exceeded"
              NicSubmit Hin eq_refl)
    as (spec & [] & names & s1 & out & s2 & Hdecode & Hnames & Hlast & _ & Hteardown & Hout).
  vm_compute in Hdecode. injection Hdecode as <-.
  vm_compute in Hnames. injection Hnames as <-.
  exists s1, out, s2. split; [exact Hlast|]. split; [exact Hteardown|].
  destruct out as [deleteErr|p]; [|exact Hout].
  destruct Hout as (Hresult & _ & Hklog). split; [exact Hresult|exact Hklog].
Defined.

(** * Further properties of the code *)

(** ** Strings *)

Lemma append_cons c a b : String c a +:+ b = String c (a +:+ b).
Proof. reflexivity. Qed.


Lemma append_length a b :
  String.length (a +:+ b) = (String.length a + String.length b)%nat.
Proof. induction a as [|c a IH]; [done|]. rewrite append_cons. simpl. by rewrite IH. Qed.








(** ** Names of the dependent resources *)


Lemma dataDiskNameAt_prefix vmName suffix i d :
  ∃ prefix,
    getAzureDataDiskPrefix (AzureDataDisk_Name d) (Some (dataDiskLunAt i d)) = Val prefix ∧
    dataDiskNameAt vmName suffix i d = vmName +:+ String "-" (prefix +:+ suffix).
Proof. eexists. split; [apply getAzureDataDiskPrefix_Some|done]. Qed.

(** X1: the names that the teardown is given for the data disks are the
    names under which the machine definition creates them: for every list
    of descriptors, [getAzureDataDiskNames] with the data-disk suffix
    returns, position by position, the names of the disks that
    [generateDataDisks] builds. *)
Theorem data_disk_names_agree (vmName : string) (disks : list AzureDataDisk) :
  ∃ names dataDisks,
    getAzureDataDiskNames disks vmName dataDiskSuffix = Val names ∧
    generateDataDisks vmName disks = Val dataDisks ∧
    compute.DataDisk_Name <$> dataDisks = Some <$> names.
Proof.
  eexists _, _. split; [apply getAzureDataDiskNames_eq|].
  split; [apply generateDataDisks_eq|].
  apply list_eq. intros i. rewrite !list_lookup_fmap, !list_lookup_imap.
  by destruct (disks !! i).
Qed.



(** With a negative LUN two different descriptors can meet in one name. *)
Example data_disk_names_collide :
  getAzureDataDiskNames
    [ {| AzureDataDisk_Name := "a"; AzureDataDisk_Lun := Some (-1);
         AzureDataDisk_Caching := ""; AzureDataDisk_StorageAccountType := "";
         AzureDataDisk_DiskSizeGB := 10 |};
      {| AzureDataDisk_Name := "a-"; AzureDataDisk_Lun := Some 1;
         AzureDataDisk_Caching := ""; AzureDataDisk_StorageAccountType := "";
         AzureDataDisk_DiskSizeGB := 10 |} ] "vm-1" dataDiskSuffix =
  Val ["vm-1-a--1-data-disk"; "vm-1-a--1-data-disk"].
Proof. by vm_compute. Qed.

(** X3: the NIC, the OS disk and the data disks of a machine never share a
    name: the name of the NIC differs from the name of the OS disk, and
    neither of them is among the names of the data disks. *)
Theorem dependent_names_disjoint (vmName : string) (disks : list AzureDataDisk)
    (names : list string) :
  getAzureDataDiskNames disks vmName dataDiskSuffix = Val names →
  dependencyNameFromVMName vmName nicSuffix ≠ dependencyNameFromVMName vmName diskSuffix ∧
  (dependencyNameFromVMName vmName nicSuffix ∉ names) ∧
  (dependencyNameFromVMName vmName diskSuffix ∉ names).
Proof.
  rewrite getAzureDataDiskNames_eq. intros [= <-].
  assert (Hlong : ∀ name, name ∈ imap (dataDiskNameAt vmName dataDiskSuffix) disks →
                          (String.length vmName + 11 ≤ String.length name)%nat).
  { intros name (i & Hi)%list_elem_of_lookup_1. rewrite list_lookup_imap in Hi.
    destruct (disks !! i) as [d|]; [|done]. injection Hi as <-.
    destruct (dataDiskNameAt_prefix vmName dataDiskSuffix i d) as (prefix & _ & ->).
    rewrite append_length. simpl. rewrite append_length. simpl. lia. }
  split_and!.
  - intros Heq%(f_equal String.length). unfold dependencyNameFromVMName in Heq.
    rewrite !append_length in Heq. simpl in Heq. lia.
  - intros Hin%Hlong. unfold dependencyNameFromVMName in Hin.
    rewrite append_length in Hin. simpl in Hin. lia.
  - intros Hin%Hlong. unfold dependencyNameFromVMName in Hin.
    rewrite append_length in Hin. simpl in Hin. lia.
Qed.

Lemma dependent_names_disjoint_witness :
  getAzureDataDiskNames [Fake.happyDisk] "vm-1" dataDiskSuffix = Val ["vm-1-0-data-disk"] ∧
  "vm-1-nic" ≠ "vm-1-os-disk" ∧
  ("vm-1-nic" ∉ ["vm-1-0-data-disk"]) ∧
  ("vm-1-os-disk" ∉ ["vm-1-0-data-disk"]).
Proof.
  split; [vm_compute; reflexivity|].
  apply (dependent_names_disjoint "vm-1" [Fake.happyDisk] ["vm-1-0-data-disk"]).
  vm_compute. reflexivity.
Defined.

(** ** The machine definition *)

Lemma getVMParameters_eq d vmName image networkInterfaceReferenceID :
  getVMParameters d vmName image networkInterfaceReferenceID =
  (secret ← deref (Plugin_Secret d);
   spec ← deref (Plugin_AzureProviderSpec d);
   imageReference ← getImageReference d;
   plan ← planOf image;
   mret (vmParametersOf spec secret vmName imageReference plan networkInterfaceReferenceID)).
Proof.
  unfold getVMParameters, planOf.
  destruct (Plugin_Secret d) as [secret|]; [|done]. simpl.
  destruct (Plugin_AzureProviderSpec d) as [spec|]; [|done]. simpl.
  destruct (getImageReference d) as [imageReference|]; [|done]. simpl.
  destruct image as [[[[[imagePlan|]]|]]|]; simpl; try done;
    unfold vmParametersOf; rewrite ?generateDataDisks_eq;
    destruct spec as [? ? [? [? ? [|disk disks]] ? ? [availabilitySet|] [identityID|] [zone|]] ? ?];
    simpl; repeat case_bool_decide; try done; simpl in *; lia.
Qed.

Lemma getVMParameters_inv d vmName image networkInterfaceReferenceID vm :
  getVMParameters d vmName image networkInterfaceReferenceID = Val vm →
  ∃ secret spec imageReference plan,
    Plugin_Secret d = Some secret ∧
    Plugin_AzureProviderSpec d = Some spec ∧
    getImageReference d = Val imageReference ∧
    planOf image = Val plan ∧
    vm = vmParametersOf spec secret vmName imageReference plan networkInterfaceReferenceID.
Proof.
  rewrite getVMParameters_eq.
  destruct (Plugin_Secret d) as [secret|]; [|done]. simpl.
  destruct (Plugin_AzureProviderSpec d) as [spec|]; [|done]. simpl.
  destruct (getImageReference d) as [imageReference|]; [|done]. simpl.
  destruct (planOf image) as [plan|]; [|done]. simpl.
  intros [= <-]. by eexists _, _, _, _.
Qed.

(** X4: [getVMParameters] returns a machine definition exactly when the
    plugin has a secret and a spec, the image reference of the spec can
    be built, and the image, when one is given, has its properties; in
    every other case it panics.  Neither the data disks nor the zone, the
    availability set or the identity can make it fail. *)
Theorem getVMParameters_returns (d : MachinePlugin) (vmName : string)
    (image : option compute.VirtualMachineImage) (networkInterfaceReferenceID : string) :
  (∃ vm, getVMParameters d vmName image networkInterfaceReferenceID = Val vm) ↔
  is_Some (Plugin_Secret d) ∧
  is_Some (Plugin_AzureProviderSpec d) ∧
  (∃ imageReference, getImageReference d = Val imageReference) ∧
  (∀ image', image = Some image' → is_Some (compute.Image_Properties image')).
Proof.
  rewrite getVMParameters_eq. unfold planOf.
  destruct (Plugin_Secret d) as [secret|]; simpl.
  2:{ split; [by intros [? ?]|]. by intros ([? ?] & _). }
  destruct (Plugin_AzureProviderSpec d) as [spec|]; simpl.
  2:{ split; [by intros [? ?]|]. by intros (_ & [? ?] & _). }
  destruct (getImageReference d) as [imageReference|]; simpl.
  2:{ split; [by intros [? ?]|]. by intros (_ & _ & [? ?] & _). }
  destruct image as [[[imageProperties|]]|]; simpl.
  - split; [|by eauto]. intros _. split_and!; eauto. by intros ? [= <-].
  - split; [by intros [? ?]|]. intros (_ & _ & _ & H).
    by destruct (H _ eq_refl).
  - split; [|by eauto]. intros _. split_and!; eauto. done.
Qed.

(** X5: the storage of a machine definition.  The image reference is the
    one that [getImageReference] builds, the OS disk is named after the
    machine, and the data disks are attached exactly when the spec lists
    any, and are then the disks that [generateDataDisks] builds; this
    holds whatever the zone, the availability set and the identity. *)
Theorem getVMParameters_storage (d : MachinePlugin) (spec : AzureProviderSpec)
    (vmName : string) (image : option compute.VirtualMachineImage)
    (networkInterfaceReferenceID : string) (vm : compute.VirtualMachine) :
  Plugin_AzureProviderSpec d = Some spec →
  getVMParameters d vmName image networkInterfaceReferenceID = Val vm →
  ∃ properties storage osDisk imageReference,
    compute.VM_Properties vm = Some properties ∧
    compute.VM_StorageProfile properties = Some storage ∧
    getImageReference d = Val imageReference ∧
    compute.StorageProfile_ImageReference storage = Some imageReference ∧
    compute.StorageProfile_OsDisk storage = Some osDisk ∧
    compute.OSDisk_Name osDisk = Some (vmName +:+ "-os-disk") ∧
    match compute.StorageProfile_DataDisks storage with
    | None => DataDisks (StorageProfile (Properties spec)) = []
    | Some dataDisks =>
        DataDisks (StorageProfile (Properties spec)) ≠ [] ∧
        generateDataDisks vmName (DataDisks (StorageProfile (Properties spec))) = Val dataDisks
    end.
Proof.
  intros Hspec
    (secret & spec' & imageReference & plan & _ & Hspec' & Href & _ & ->)%getVMParameters_inv.
  simplify_eq. eexists _, _, _, _. split_and!; try done.
  simpl. rewrite generateDataDisks_eq.
  by destruct (DataDisks (StorageProfile (Properties spec))).
Qed.

Lemma getVMParameters_storage_witness :
  Plugin_AzureProviderSpec Sample.identifiedPlugin = Some Sample.identifiedSpec ∧
  getVMParameters Sample.identifiedPlugin "vm-1" (Some (Fake.vmImage "plan-a")) "nic-id"
    = Val Sample.identifiedVM ∧
  ∃ properties storage osDisk imageReference,
    compute.VM_Properties Sample.identifiedVM = Some properties ∧
    compute.VM_StorageProfile properties = Some storage ∧
    getImageReference Sample.identifiedPlugin = Val imageReference ∧
    compute.StorageProfile_ImageReference storage = Some imageReference ∧
    compute.StorageProfile_OsDisk storage = Some osDisk ∧
    compute.OSDisk_Name osDisk = Some "vm-1-os-disk" ∧
    match compute.StorageProfile_DataDisks storage with
    | None => [Fake.happyDisk] = []
    | Some dataDisks =>
        [Fake.happyDisk] ≠ [] ∧
        generateDataDisks "vm-1" [Fake.happyDisk] = Val dataDisks
    end.
Proof.
  split; [reflexivity|]. split; [vm_compute; reflexivity|].
  apply (getVMParameters_storage Sample.identifiedPlugin Sample.identifiedSpec "vm-1"
           (Some (Fake.vmImage "plan-a")) "nic-id" Sample.identifiedVM);
    [reflexivity|vm_compute; reflexivity].
Defined.

(** X6: the optional parts of a machine definition.  It has an identity
    exactly when the spec has an identity ID that is not empty, and the
    identity is then user-assigned and holds that ID alone; it has a
    plan exactly when an image is given and the image has one, and the
    plan then has the name, the product and the publisher of the plan of
    the image. *)
Theorem getVMParameters_identity_and_plan (d : MachinePlugin) (spec : AzureProviderSpec)
    (vmName : string) (image : option compute.VirtualMachineImage)
    (networkInterfaceReferenceID : string) (vm : compute.VirtualMachine) :
  Plugin_AzureProviderSpec d = Some spec →
  getVMParameters d vmName image networkInterfaceReferenceID = Val vm →
  (∀ identity,
     compute.VM_Identity vm = Some identity ↔
     ∃ identityID,
       IdentityID (Properties spec) = Some identityID ∧
       identityID ≠ "" ∧
       identity = {| compute.Identity_Type := compute.ResourceIdentityTypeUserAssigned;
                     compute.UserAssignedIdentities := {[ identityID ]} |}) ∧
  (∀ plan,
     compute.VM_Plan vm = Some plan ↔
     ∃ image' imageProperties imagePlan,
       image = Some image' ∧
       compute.Image_Properties image' = Some imageProperties ∧
       compute.Image_Plan imageProperties = Some imagePlan ∧
       plan = {| compute.Plan_Name := compute.PurchasePlan_Name imagePlan;
                 compute.Plan_Product := compute.PurchasePlan_Product imagePlan;
                 compute.Plan_Publisher := compute.PurchasePlan_Publisher imagePlan |}).
Proof.
  intros Hspec
    (secret & spec' & imageReference & plan' & _ & Hspec' & _ & Hplan & ->)%getVMParameters_inv.
  simplify_eq. split.
  - intros identity. simpl.
    destruct (IdentityID (Properties spec)) as [identityID|].
    + case_bool_decide; split.
      * intros [= <-]. by exists identityID.
      * by intros (? & [= <-] & _ & ->).
      * done.
      * intros (? & [= <-] & ? & _). done.
    + split; [done|]. by intros (? & ? & _).
  - intros plan. simpl. unfold planOf in Hplan.
    destruct image as [[[[[imagePlan|]]|]]|];
      unfold mret, outcome_ret in Hplan; simplify_eq/=.
    + split; [intros ?; simplify_eq; by eexists _, _, _|].
      intros (? & ? & ? & ? & ? & ? & ->). by simplify_eq/=.
    + split; [done|]. intros (? & ? & ? & ? & ? & ? & _). by simplify_eq/=.
    + split; [done|]. by intros (? & ? & ? & ? & _).
Qed.

Lemma getVMParameters_identity_and_plan_witness :
  Plugin_AzureProviderSpec Sample.identifiedPlugin = Some Sample.identifiedSpec ∧
  getVMParameters Sample.identifiedPlugin "vm-1" (Some (Fake.vmImage "plan-a")) "nic-id"
    = Val Sample.identifiedVM ∧
  compute.VM_Identity Sample.identifiedVM =
    Some {| compute.Identity_Type := compute.ResourceIdentityTypeUserAssigned;
            compute.UserAssignedIdentities := {[ "identity-1" ]} |} ∧
  compute.VM_Plan Sample.identifiedVM =
    Some {| compute.Plan_Name := Some "plan-a";
            compute.Plan_Product := Some "plan-a";
            compute.Plan_Publisher := Some "plan-a" |}.
Proof.
  split; [reflexivity|]. split; [vm_compute; reflexivity|].
  destruct (getVMParameters_identity_and_plan Sample.identifiedPlugin Sample.identifiedSpec
              "vm-1" (Some (Fake.vmImage "plan-a")) "nic-id" Sample.identifiedVM)
    as [Hidentity Hplan]; [reflexivity|vm_compute; reflexivity|].
  split.
  - apply Hidentity. exists "identity-1". split; [reflexivity|]. split; [discriminate|].
    reflexivity.
  - apply Hplan. eexists _, _, _. split; [reflexivity|]. split; [reflexivity|].
    split; reflexivity.
Defined.

(** ** What is created is what a rollback deletes *)

(** X17: the machine that the creation workflow submits has the OS disk
    and the data disks that its rollback deletes: the OS disk is named
    after the lowercased machine name, and the names of the data disks
    of the submitted definition are, one by one, the data-disk names
    that the workflow hands to the teardown. *)
Theorem submitted_disks_are_torn_down {error World Clients NICFuture VMFuture : Type}
    (env : Env error World Clients NICFuture VMFuture)
    (req : CreateMachineRequest) (s : State) (spec : AzureProviderSpec)
    (group name : string) (parameters : compute.VirtualMachine) (err : option error) :
  decodeProviderSpecAndSecret env (Request_MachineClass req) (Request_Secret req)
    = Ok spec →
  (VM_CreateOrUpdate group name parameters, err) ∈ issued (createVMNicDisk env req) s →
  let vmName := strings_ToLower env (Machine_Name req) in
  ∃ dataDiskNames properties storage osDisk,
    dataDiskNamesOf vmName spec = Val dataDiskNames ∧
    compute.VM_Properties parameters = Some properties ∧
    compute.VM_StorageProfile properties = Some storage ∧
    compute.StorageProfile_OsDisk storage = Some osDisk ∧
    compute.OSDisk_Name osDisk = Some (dependencyNameFromVMName vmName diskSuffix) ∧
    compute.DataDisk_Name <$> default [] (compute.StorageProfile_DataDisks storage)
      = Some <$> dataDiskNames.
Proof.
  intros Hdecode Hin vmName.
  destruct (createVMNicDisk_run env req s spec Hdecode)
    as (_ & evs & Htrace & _ & _ & _ & Hsubmitted & _).
  rewrite (issued_eq _ _ _ Htrace) in Hin.
  destruct (Hsubmitted _ _ _ _ Hin) as (image & nicID & _ & _ & _ & _ & _ & _ & _ & Hparameters).
  apply getVMParameters_inv in Hparameters
    as (secret & spec' & imageReference & plan & _ & Hspec & _ & _ & ->).
  simpl in Hspec. injection Hspec as <-.
  eexists _, _, _, _. split; [apply dataDiskNamesOf_eq|].
  split_and!; try done.
  remember (DataDisks (StorageProfile (Properties spec))) as disks eqn:Hdisks.
  simpl.
  destruct disks as [|disk rest]; [done|]. cbv beta iota delta [default].
  apply list_eq. intros [|i]; [done|]. simpl.
  rewrite !list_lookup_fmap, !list_lookup_imap. by destruct (rest !! i).
Qed.

Lemma submitted_disks_are_torn_down_witness :
  let req := Fake.request "VM-1" "p:o:s:v" in
  let s := Fake.start Sample.planScript in
  decodeProviderSpecAndSecret Fake.env (Request_MachineClass req) (Request_Secret req)
    = Ok (Fake.spec (Fake.image "p:o:s:v") [Fake.happyDisk] None None) ∧
  (VM_CreateOrUpdate "group" "vm-1" Sample.submittedVM, None)
    ∈ issued (createVMNicDisk Fake.env req) s ∧
  ∃ dataDiskNames properties storage osDisk,
    dataDiskNamesOf "vm-1" (Fake.spec (Fake.image "p:o:s:v") [Fake.happyDisk] None None)
      = Val dataDiskNames ∧
    compute.VM_Properties Sample.submittedVM = Some properties ∧
    compute.VM_StorageProfile properties = Some storage ∧
    compute.StorageProfile_OsDisk storage = Some osDisk ∧
    compute.OSDisk_Name osDisk = Some "vm-1-os-disk" ∧
    compute.DataDisk_Name <$> default [] (compute.StorageProfile_DataDisks storage)
      = Some <$> dataDiskNames.
Proof.
  intros req s. split; [reflexivity|].
  assert (Hin : (VM_CreateOrUpdate "group" "vm-1" Sample.submittedVM, None)
                  ∈ issued (createVMNicDisk Fake.env req) s).
  { apply (list_elem_of_lookup_2 _ 10). vm_compute. reflexivity. }
  split; [exact Hin|].
  apply (submitted_disks_are_torn_down Fake.env req s
           (Fake.spec (Fake.image "p:o:s:v") [Fake.happyDisk] None None)
           "group" "vm-1" Sample.submittedVM None eq_refl Hin).
Defined.

(** X18: how the creation workflow wires the resources.  The interface it
    submits lies in the location of the spec and has one IP configuration,
    named as the NIC, with dynamic allocation, in a subnet that the
    subnet lookup of the spec's virtual network has returned, and takes
    the accelerated-networking flag of the spec.  The machine it submits
    has one network interface, marked primary, whose ID is the ID of an
    interface that the NIC future has returned. *)
Theorem resources_are_wired {error World Clients NICFuture VMFuture : Type}
    (env : Env error World Clients NICFuture VMFuture)
    (req : CreateMachineRequest) (s : State) (spec : AzureProviderSpec) :
  decodeProviderSpecAndSecret env (Request_MachineClass req) (Request_Secret req)
    = Ok spec →
  let vmName := strings_ToLower env (Machine_Name req) in
  (∀ group name parameters err,
     (Nic_CreateOrUpdate group name parameters, err) ∈ issued (createVMNicDisk env req) s →
     ∃ clients vnetGroup w subnet w' properties,
       GetSubnet_Get env clients vnetGroup (VnetName (SubnetInfo spec))
         (SubnetName (SubnetInfo spec)) "" w = (Ok subnet, w') ∧
       network.Interface_Location parameters = Some (Location spec) ∧
       network.Interface_Properties parameters = Some properties ∧
       network.IPConfigurations properties = Some [ {|
         network.InterfaceIPConfiguration_Name :=
           Some (dependencyNameFromVMName vmName nicSuffix);
         network.PrivateIPAllocationMethod := network.Dynamic;
         network.InterfaceIPConfiguration_Subnet := Some subnet
       |} ] ∧
       network.EnableAcceleratedNetworking properties =
         NetworkProfile_AcceleratedNetworking (Properties spec)) ∧
  (∀ group name parameters err,
     (VM_CreateOrUpdate group name parameters, err) ∈ issued (createVMNicDisk env req) s →
     ∃ future clients w NIC w' networkInterfaceReferenceID properties,
       NICFuture_result env future clients w = (Ok NIC, w') ∧
       network.Interface_ID NIC = Some networkInterfaceReferenceID ∧
       compute.VM_Properties parameters = Some properties ∧
       compute.NetworkProfile_NetworkInterfaces properties = Some [ {|
         compute.NetworkInterfaceReference_ID := Some networkInterfaceReferenceID;
         compute.Primary := Some true
       |} ]).
Proof.
  intros Hdecode vmName.
  destruct (createVMNicDisk_run env req s spec Hdecode)
    as (_ & evs & Htrace & _ & _ & _ & Hmachine & Hinterface).
  rewrite (issued_eq _ _ _ Htrace). split.
  - intros group name parameters err Hin.
    destruct (Hinterface _ _ _ _ Hin)
      as (clients & vnetGroup & w & subnet & w' & Hsubnet & Hparameters).
    unfold getNICParameters in Hparameters. simpl in Hparameters.
    injection Hparameters as <-. by eexists _, _, _, _, _, _.
  - intros group name parameters err Hin.
    destruct (Hmachine _ _ _ _ Hin)
      as (image & nicID & future & clients & w & NIC & w' & Hnic & HID & Hparameters).
    apply getVMParameters_inv in Hparameters as (? & ? & ? & ? & _ & _ & _ & _ & ->).
    by eexists _, _, _, _, _, _, _.
Qed.

Lemma resources_are_wired_witness :
  let req := Fake.request "VM-1" "p:o:s:v" in
  let s := Fake.start Sample.planScript in
  decodeProviderSpecAndSecret Fake.env (Request_MachineClass req) (Request_Secret req)
    = Ok (Fake.spec (Fake.image "p:o:s:v") [Fake.happyDisk] None None) ∧
  (Nic_CreateOrUpdate "group" "vm-1-nic" Sample.submittedNIC, None)
    ∈ issued (createVMNicDisk Fake.env req) s ∧
  (VM_CreateOrUpdate "group" "vm-1" Sample.submittedVM, None)
    ∈ issued (createVMNicDisk Fake.env req) s ∧
  (∃ properties subnet,
     network.Interface_Properties Sample.submittedNIC = Some properties ∧
     network.IPConfigurations properties = Some [ {|
       network.InterfaceIPConfiguration_Name := Some "vm-1-nic";
       network.PrivateIPAllocationMethod := network.Dynamic;
       network.InterfaceIPConfiguration_Subnet := Some subnet
     |} ]) ∧
  (∃ properties networkInterfaceReferenceID,
     compute.VM_Properties Sample.submittedVM = Some properties ∧
     compute.NetworkProfile_NetworkInterfaces properties = Some [ {|
       compute.NetworkInterfaceReference_ID := Some networkInterfaceReferenceID;
       compute.Primary := Some true
     |} ]).
Proof.
  intros req s. split; [reflexivity|].
  assert (HinNIC : (Nic_CreateOrUpdate "group" "vm-1-nic" Sample.submittedNIC, None)
                     ∈ issued (createVMNicDisk Fake.env req) s).
  { apply (list_elem_of_lookup_2 _ 3). vm_compute. reflexivity. }
  assert (HinVM : (VM_CreateOrUpdate "group" "vm-1" Sample.submittedVM, None)
                    ∈ issued (createVMNicDisk Fake.env req) s).
  { apply (list_elem_of_lookup_2 _ 10). vm_compute. reflexivity. }
  split; [exact HinNIC|]. split; [exact HinVM|].
  destruct (resources_are_wired Fake.env req s
              (Fake.spec (Fake.image "p:o:s:v") [Fake.happyDisk] None None) eq_refl)
    as [Hinterface Hmachine].
  split.
  - destruct (Hinterface _ _ _ _ HinNIC)
      as (_ & _ & _ & subnet & _ & properties & _ & _ & Hproperties & Hconfigurations & _).
    by exists properties, subnet.
  - destruct (Hmachine _ _ _ _ HinVM)
      as (_ & _ & _ & _ & _ & nicID & properties & _ & _ & Hproperties & Hinterfaces).
    by exists properties, nicID.
Defined.

(** ** The fake driver *)



Example provider_id_of_a_machine :
  mock.CreateMachine Fake.decode id id (Fake.request "VM-1" "image-id") =
  Ok {| mock.ProviderID := "azure:///westeurope/VM-1"; mock.NodeName := "VM-1" |}.
Proof. by vm_compute. Qed.

(** ** The further properties on the scripted backend *)

Lemma machine_found_teardown_witness :
  let s := Fake.start [Fake.Succeed; Fake.Succeed; Fake.Fail "locked"] in
  GetVM_Get Fake.env tt "group" "vm-1" "" (world s)
    = (Ok (Fake.vm "vm-1"), [Fake.Succeed; Fake.Fail "locked"]) ∧
  WaitForDataDiskDetachment Fake.env tt "group" (Fake.vm "vm-1")
    [Fake.Succeed; Fake.Fail "locked"] = (None, [Fake.Fail "locked"]) ∧
  DeleteVM Fake.env tt "group" "vm-1" [Fake.Fail "locked"] = (Some "locked", []) ∧
  (deleteVMNicDisks Fake.env tt "group" "vm-1" "vm-1-nic" "vm-1-os-disk"
     ["vm-1-0-data-disk"] s).1 = Val (Some "locked") ∧
  trace (deleteVMNicDisks Fake.env tt "group" "vm-1" "vm-1-nic" "vm-1-os-disk"
           ["vm-1-0-data-disk"] s).2 =
    [(VM_Get "group" "vm-1" "", None);
     (spi_WaitForDataDiskDetachment "group" (Fake.vm "vm-1"), None);
     (spi_DeleteVM "group" "vm-1", Some "locked")].
Proof.
  intros s. split; [reflexivity|]. split; [reflexivity|]. split; [reflexivity|].
  rewrite (machine_found_teardown Fake.env tt "group" "vm-1" "vm-1-nic" "vm-1-os-disk"
             ["vm-1-0-data-disk"] s (Fake.vm "vm-1") None (Some "locked")
             [Fake.Succeed; Fake.Fail "locked"] [Fake.Fail "locked"] []);
    [|reflexivity..].
  split; reflexivity.
Defined.

Lemma dependents_after_machine_witness :
  let run :=
    deleteVMNicDisks Fake.env tt "group" "vm-1" "vm-1-nic" "vm-1-os-disk"
      ["vm-1-0-data-disk"] in
  let s := Fake.start [Fake.Fail "not found"] in
  (spi_DeleteNIC "group" "vm-1-nic", None) ∈ issued run s ∧
  ((spi_DeleteVM "group" "vm-1", None) ∈ issued run s ∨
   ∃ err, (VM_Get "group" "vm-1" "", Some err) ∈ issued run s ∧
          NotFound Fake.env err = true).
Proof.
  intros run s.
  assert (Hin : (spi_DeleteNIC "group" "vm-1-nic", None) ∈ issued run s).
  { apply (list_elem_of_lookup_2 _ 2). vm_compute. reflexivity. }
  split; [exact Hin|].
  apply (dependents_after_machine Fake.env tt "group" "vm-1" "vm-1-nic" "vm-1-os-disk"
           ["vm-1-0-data-disk"] s (spi_DeleteNIC "group" "vm-1-nic", None));
    [exact Hin|reflexivity].
Defined.

Lemma creation_calls_in_order_witness :
  let run := createVMNicDisk Fake.env (Fake.request "VM-1" "p:o:s:v") in
  let s := Fake.start Sample.planScript in
  issued run s !! 4%nat = Some (NICFuture_WaitForCompletionRef, None) ∧
  issued run s !! 6%nat = Some (NICFuture_Result, None) ∧
  position NICFuture_WaitForCompletionRef = Some 3%nat ∧
  position NICFuture_Result = Some 4%nat ∧
  (3 < 4)%nat ∧ (None : option string) = None.
Proof.
  intros run s. split; [vm_compute; reflexivity|]. split; [vm_compute; reflexivity|].
  split; [reflexivity|]. split; [reflexivity|].
  apply (creation_calls_in_order Fake.env (Fake.request "VM-1" "p:o:s:v") s 4 6
           NICFuture_WaitForCompletionRef NICFuture_Result None None 3 4);
    [vm_compute; reflexivity|vm_compute; reflexivity|lia|reflexivity|reflexivity].
Defined.

Lemma teardown_only_after_failed_step_witness :
  let run := createVMNicDisk Fake.env (Fake.request "VM-1" "image-id") in
  let s := Fake.start Fake.rollbackScript in
  issued run s !! 4%nat = Some (VM_Get "group" "vm-1" "", Some "backend down") ∧
  ∃ i c' err st,
    (i < 4)%nat ∧ issued run s !! i = Some (c', Some err) ∧ creation_step c' = Some st.
Proof.
  intros run s. split; [vm_compute; reflexivity|].
  apply (teardown_only_after_failed_step Fake.env (Fake.request "VM-1" "image-id") s 4
           (VM_Get "group" "vm-1" "") (Some "backend down"));
    [vm_compute; reflexivity|reflexivity].
Defined.


Lemma failures_before_creation_witness :
  let req := Fake.request "VM-1" "image-id" in
  decodeProviderSpecAndSecret Fake.env (Request_MachineClass req) (Request_Secret req)
    = Ok (Fake.spec (Fake.image "image-id") [Fake.happyDisk] None None) ∧
  (createVMNicDisk Fake.env req (Fake.start [Fake.Fail "denied"])).1
    = Val (Err "denied") ∧
  trace (createVMNicDisk Fake.env req (Fake.start [Fake.Fail "denied"])).2
    = [(SPI_Setup, Some "denied")] ∧
  (createVMNicDisk Fake.env req (Fake.start [Fake.Succeed; Fake.Fail "no subnet"])).1
    = Val (Err "no subnet").
Proof.
  intros req. split; [reflexivity|].
  pose proof (failures_before_creation Fake.env req (Fake.start [Fake.Fail "denied"])
                (Fake.spec (Fake.image "image-id") [Fake.happyDisk] None None) eq_refl)
    as [Hsetup _].
  pose proof (failures_before_creation Fake.env req
                (Fake.start [Fake.Succeed; Fake.Fail "no subnet"])
                (Fake.spec (Fake.image "image-id") [Fake.happyDisk] None None) eq_refl)
    as [_ Hsubnet].
  rewrite (Hsetup "denied" [] eq_refl).
  rewrite (Hsubnet tt [Fake.Fail "no subnet"] "no subnet" [] eq_refl eq_refl).
  split; [reflexivity|]. split; reflexivity.
Defined.
